(** * PerfSpect similarity-analyzer: data_formatter/main.py

  A shallow embedding of the data formatter (the readers [excel2json] and
  [csv2json], the table writers [compare_metrics] and
  [compare_metrics_all], and [main]) together with the properties of the
  comparison table it emits.

  Python objects are modelled by the type [value]; a [dict] is an
  association list in insertion order (the order [dict.keys()] iterates
  in); exceptions are an error result threaded through a state monad whose
  state is the part of the outside world the script touches.

  The libraries are taken at their interface: [argparse] by the namespace
  it returns, [xlrd] by the sheets of a workbook, [csv.reader] by the rows
  of fields it yields, [csv.writer] by the rows it is given (the quoting
  of a field is not modelled), [float] by a function on strings, and the
  iteration order of a [set] by a function on lists. *)

From stdpp Require Import base option list strings gmap.

Open Scope string_scope.
Open Scope list_scope.
Open Scope stdpp_scope.

(** ** Python strings *)

Module Str.

(** [s.startswith(prefix)] *)
Definition startswith (s prefix : string) : bool := String.prefix prefix s.

(** [s.endswith(suffix)]: the last [len(suffix)] characters of [s] are
    compared with [suffix]. *)
Definition endswith (s suffix : string) : bool :=
  let n := String.length s in
  let m := String.length suffix in
  (m <=? n)%nat && String.eqb (String.substring (n - m) m s) suffix.

(** [s.split(sep)] for a one-character separator: the result is never
    empty, and an empty [s] gives one empty string. *)
Fixpoint split (sep : Ascii.ascii) (s : string) : list string :=
  match s with
  | EmptyString => [EmptyString]
  | String c s' =>
      if Ascii.eqb c sep then EmptyString :: split sep s'
      else match split sep s' with
           | h :: t => String c h :: t
           | [] => [String c EmptyString]
           end
  end.

(** Truth value of a string: empty strings are false. *)
Definition truthy (s : string) : bool :=
  match s with EmptyString => false | _ => true end.

(** The character [sep] occurs in [s]. *)
Fixpoint contains (sep : Ascii.ascii) (s : string) : bool :=
  match s with
  | EmptyString => false
  | String c s' => Ascii.eqb c sep || contains sep s'
  end.

End Str.

(** ** Python dictionaries

  Keys in insertion order. Assigning to a key that is present keeps the
  key in its place and replaces the value; a new key goes to the end. *)

Module Dict.
Section Dict.
Context {K V : Type} `{!EqDecision K}.

Definition t := list (K * V).

Definition keys (d : t) : list K := d.*1.

(** [d[k] = v] *)
Fixpoint set (k : K) (v : V) (d : t) : t :=
  match d with
  | [] => [(k, v)]
  | (k', v') :: d' =>
      if decide (k' = k) then (k', v) :: d' else (k', v') :: set k v d'
  end.

(** [d[k]], [None] standing for [KeyError] *)
Fixpoint get (k : K) (d : t) : option V :=
  match d with
  | [] => None
  | (k', v') :: d' => if decide (k' = k) then Some v' else get k d'
  end.

(** [k in d] *)
Definition mem (k : K) (d : t) : bool := bool_decide (k ∈ keys d).

(** [dict(pairs)]: the pairs are assigned from left to right. *)
Definition of_pairs (l : list (K * V)) : t :=
  foldl (λ d kv, set kv.1 kv.2 d) [] l.

End Dict.
Global Arguments t : clear implicits.
End Dict.


(** ** Python objects, exceptions and the outside world *)

Section Model.

(** Numbers ([float] objects and the numbers [xlrd] gives for numeric cells)
    are kept abstract; [num] comes with the equality Python uses to compare
    dictionary keys. *)
Context {num : Type} `{!EqDecision num}.

(** [float(s)] on a string: the number, or [None] for [ValueError]. *)
Variable float_of_str : string → option num.

(** The objects that reach a dictionary or a table cell: [None], a string
    or a number. *)
Inductive value :=
| VNone
| VStr (s : string)
| VNum (x : num).

#[global] Instance value_eq_dec : EqDecision value.
Proof. solve_decision. Defined.

(** [list(set(l))]: the order a set iterates in is not specified; it is a
    parameter of the model. *)
Variable list_of_set : list value → list value.

(** The argument of [SystemExit]: none, an integer status or a message. *)
Inductive exit_arg :=
| ExitNone
| ExitInt (n : Z)
| ExitStr (msg : string).

Inductive exn :=
| SystemError (msg : string)
| SystemExit (arg : exit_arg)
| XLRDError (msg : string)
| KeyError (key : string)
| ValueError
| TypeError
| AttributeError
| IndexError
| UnicodeDecodeError
| OSError.

Inductive result (A : Type) :=
| Ok (a : A)
| Raise (e : exn).
Arguments Ok {A} a.
Arguments Raise {A} e.

(** A sheet of a workbook: its rows of cell values. *)
Definition sheet := list (list value).

(** What the libraries make of a file on disk: [os.access(path, os.R_OK)],
    [xlrd.open_workbook(path)] (the text of an [XLRDError], or the sheets by
    name), and the rows [csv.reader] splits the decoded text into ([None]
    when the file does not decode as UTF-8). *)
Record input_file := InputFile {
  access_R_OK : bool;
  open_workbook : string + list (string * sheet);
  csv_reader : option (list (list string));
}.

(** An argument of [print]. *)
Inductive printed :=
| PStr (s : string)
| PList (l : list string).

(** The outside world: the files the readers see, the paths [open(_, "w")]
    accepts, the tables written through [csv.writer] by path, and the lines
    printed. All reading in [main] comes before its one write, so the files
    read are kept apart from the files written. *)
Record world := World {
  disk : gmap string input_file;
  can_create : string → bool;
  outputs : gmap string (list (list value));
  stdout : list (list printed);
}.

(** Computations: state passing over [world], with an exception result. *)
Definition M (A : Type) : Type := world → result A * world.

#[global] Instance M_ret : MRet M := λ A a w, (Ok a, w).

#[global] Instance M_bind : MBind M := λ A B f m w,
  match m w with
  | (Ok a, w') => f a w'
  | (Raise e, w') => (Raise e, w')
  end.

Definition raise {A} (e : exn) : M A := λ w, (Raise e, w).

(** [try: body except E: handler], [handles e] telling whether [e] is an
    [E]. *)
Definition try_except {A} (body : M A) (handles : exn → bool)
    (handler : exn → M A) : M A := λ w,
  match body w with
  | (Raise e, w') => if handles e then handler e w' else (Raise e, w')
  | r => r
  end.

(** A result without effects, as a computation. *)
Definition lift {A} (r : result A) : M A := λ w, (r, w).

(** [for x in l: body(x)] *)
Fixpoint for_each {A} (l : list A) (body : A → M unit) : M unit :=
  match l with
  | [] => mret ()
  | x :: l' => body x ;; for_each l' body
  end.

(** The world with other tables written, and with other lines printed. *)
Definition set_outputs (o : gmap string (list (list value))) (w : world)
    : world :=
  World (disk w) (can_create w) o (stdout w).

Definition set_stdout (lines : list (list printed)) (w : world) : world :=
  World (disk w) (can_create w) (outputs w) lines.

Definition print (args : list printed) : M unit := λ w,
  (Ok (), set_stdout (stdout w ++ [args]) w).

Definition os_access (filename : string) : M bool := λ w,
  (Ok (default false (access_R_OK <$> disk w !! filename)), w).

(** [open(out, "w")]: the file is created or truncated. *)
Definition open_w (out : string) : M unit := λ w,
  if can_create w out
  then (Ok (), set_outputs (<[out := []]> (outputs w)) w)
  else (Raise OSError, w).

(** [csvwriter.writerow(row)] on the writer of the file opened at [out]. *)
Definition writerow (out : string) (row : list value) : M unit := λ w,
  (Ok (), set_outputs (alter (λ rows, rows ++ [row]) out (outputs w)) w).

#[global] Instance result_ret : MRet result := λ A a, Ok a.

#[global] Instance result_bind : MBind result := λ A B f r,
  match r with
  | Ok a => f a
  | Raise e => Raise e
  end.

(** [l[i]] on a list *)
Definition getindex {A} (l : list A) (i : nat) : result A :=
  match l !! i with
  | Some x => Ok x
  | None => Raise IndexError
  end.

(** A dictionary of metrics: metric name to value. *)
Abbreviation dict := (Dict.t value value).

(** ** Format readers *)

(** [wb.sheet_by_name(name)]: the first sheet of that name. *)
Definition sheet_by_name (wb : list (string * sheet)) (name : string)
    : result sheet :=
  match Dict.get name wb with
  | Some sh => Ok sh
  | None => Raise (XLRDError ("No sheet named <'" +:+ name +:+ "'>"))
  end.

(** [xlrd.open_workbook(filename)] *)
Definition xlrd_open_workbook (filename : string)
    : M (list (string * sheet)) := λ w,
  match open_workbook <$> disk w !! filename with
  | Some (inr wb) => (Ok wb, w)
  | Some (inl msg) => (Raise (XLRDError msg), w)
  | None => (Raise OSError, w)
  end.

(** The body of the loop of [excel2json] over the rows
    [sh.row_values(rownum)]. *)
Fixpoint excel2json_rows (rows : list (list value)) (data : dict)
    : result dict :=
  match rows with
  | [] => Ok data
  | row_values :: rest =>
      metric ← getindex row_values 0;
      val ← getindex row_values 1;
      excel2json_rows rest (Dict.set metric val data)
  end.

Definition is_XLRDError (e : exn) : bool :=
  match e with XLRDError _ => true | _ => false end.

Definition excel2json (filename : string) (sheet : string) : M dict :=
  try_except
    (readable ← os_access filename;
     if (readable : bool) then
       wb ← xlrd_open_workbook filename;
       sh ← lift (sheet_by_name wb sheet);
       (* range(1, sh.nrows): row 0 is skipped *)
       lift (excel2json_rows (drop 1 sh) [])
     else raise (SystemExit (ExitStr (filename +:+ " not accessible"))))
    is_XLRDError
    (λ e, print [PStr (match e with XLRDError msg => msg | _ => "" end)];;
          (* sys.exit(1) *)
          raise (SystemExit (ExitInt 1))).

(** One row of [csv.DictReader]: [dict(zip(fieldnames, row))], after which
    the fields a short row has no cell for are set to [restval], [None].
    (The surplus cells of a long row go under the key [restkey], [None],
    which no string looks up; that entry is left out.) *)
Definition DictReader_row (fieldnames row : list string)
    : Dict.t string (option string) :=
  foldl (λ d key, Dict.set key None d)
        (Dict.of_pairs (zip fieldnames (Some <$> row)))
        (drop (length row) fieldnames).

(** [csv.DictReader(csvf)] over the rows of [csv.reader]: the first row
    gives the field names, blank rows are skipped. *)
Definition DictReader (rows : list (list string))
    : list (Dict.t string (option string)) :=
  match rows with
  | [] => []
  | fieldnames :: rows' =>
      DictReader_row fieldnames <$> filter (λ row, row ≠ []) rows'
  end.

(** [rows[key]] on a row of the [DictReader] *)
Definition getitem (rows : Dict.t string (option string)) (key : string)
    : result (option string) :=
  match Dict.get key rows with
  | Some v => Ok v
  | None => Raise (KeyError key)
  end.

(** [float(x)]: [None] is a [TypeError], a string that is no number a
    [ValueError]. *)
Definition float (x : option string) : result num :=
  match x with
  | None => Raise TypeError
  | Some s =>
      match float_of_str s with
      | Some f => Ok f
      | None => Raise ValueError
      end
  end.

(** A cell of a [DictReader] row as an object. *)
Definition of_cell (x : option string) : value :=
  match x with
  | None => VNone
  | Some s => VStr s
  end.

(** The loop of [csv2json] over the rows of the [DictReader]. *)
Fixpoint csv2json_rows (csvReader : list (Dict.t string (option string)))
    (data : dict) : result dict :=
  match csvReader with
  | [] => Ok data
  | rows :: rest =>
      key ← getitem rows "metrics";
      avg ← getitem rows "avg";
      x ← float avg;
      csv2json_rows rest (Dict.set (of_cell key) (VNum x) data)
  end.

(** A row the loop body of [csv2json] accepts, and the assignment
    [data[key] = float(rows["avg"])] it makes. *)
Definition assigns (row : Dict.t string (option string))
    (kv : value * value) : Prop :=
  ∃ key avg x,
    getitem row "metrics" = Ok key ∧ getitem row "avg" = Ok (Some avg)
    ∧ float_of_str avg = Some x ∧ kv = (of_cell key, VNum x).

(** [open(filename, encoding="utf-8")] read through [csv.reader] *)
Definition open_csv (filename : string) : M (list (list string)) := λ w,
  match disk w !! filename with
  | Some f =>
      match csv_reader f with
      | Some rows => (Ok rows, w)
      | None => (Raise UnicodeDecodeError, w)
      end
  | None => (Raise OSError, w)
  end.

Definition is_KeyError (e : exn) : bool :=
  match e with KeyError _ => true | _ => false end.

Definition csv2json (filename : string) : M dict :=
  try_except
    (readable ← os_access filename;
     if (readable : bool) then
       rows ← open_csv filename;
       lift (csv2json_rows (DictReader rows) [])
     else raise (SystemExit (ExitStr (filename +:+ " not accessible"))))
    is_KeyError
    (λ _, raise (SystemExit ExitNone)).

(** ** Metric selection, table building and writing *)

Definition invalid_filename (filename : string) : M unit :=
  if negb (Str.endswith filename ".csv")
  then raise (SystemError (filename +:+ " isn't a csv format!"))
  else mret ().

(** The four names of the predefined list. *)
Definition basic_metrics : list string :=
  [ "metric_CPU operating frequency (in GHz)";
    "metric_CPU utilization %";
    "metric_CPU utilization% in kernel mode";
    "metric_CPI" ].

(** The condition of the comprehension,
    [m.startswith("metric_TMA") or m in [...]]; only a string has
    [startswith]. *)
Definition is_predefined (m : value) : result bool :=
  match m with
  | VStr s =>
      Ok (Str.startswith s "metric_TMA"
          || bool_decide (m ∈ VStr <$> basic_metrics))
  | _ => Raise AttributeError
  end.

(** [[x for x in l if cond(x)]] *)
Fixpoint comprehension {A} (cond : A → result bool) (l : list A)
    : result (list A) :=
  match l with
  | [] => Ok []
  | x :: l' =>
      b ← cond x;
      rest ← comprehension cond l';
      mret (if (b : bool) then x :: rest else rest)
  end.

(** The metric list [compare_metrics] goes on with. *)
Definition select_metrics (metriclist : list value) (datalist : list dict)
    : result (list value) :=
  match metriclist with
  | [] =>
      first ← getindex datalist 0;
      comprehension is_predefined (Dict.keys first)
  | _ => Ok metriclist
  end.

(** The cell for [metric] in the column of [data]: [data[metric]] if
    [metric in data], else ["NA"]. ([metric in data] holds exactly when
    [data[metric]] is defined, see [mem_get].) *)
Definition cell (metric : value) (data : dict) : value :=
  match Dict.get metric data with
  | Some v => v
  | None => VStr "NA"
  end.

(** The row of [metric]: the name, then one cell appended per dataset. *)
Definition rowlines (metric : value) (datalist : list dict) : list value :=
  foldl (λ rowlines data, rowlines ++ [cell metric data]) [metric] datalist.

Definition compare_metrics (metriclist : list value) (datalist : list dict)
    (fields : list value) (out : string) : M unit :=
  metriclist ← lift (select_metrics metriclist datalist);
  print [PStr "comparing predefined metrics only"];;
  invalid_filename out;;
  open_w out;;
  writerow out fields;;
  for_each metriclist (λ metric, writerow out (rowlines metric datalist)).

(** [allkeys] of [compare_metrics_all]: the keys of every dataset, appended
    one by one. *)
Definition allkeys (datalist : list dict) : list value :=
  foldl (λ allkeys data, foldl (λ allkeys k, allkeys ++ [k]) allkeys (Dict.keys data))
        [] datalist.

Definition compare_metrics_all (datalist : list dict) (fields : list value)
    (out : string) : M unit :=
  print [PStr "comparing all metrics in the summary sheet"];;
  invalid_filename out;;
  open_w out;;
  writerow out fields;;
  let uniquekeys := list_of_set (allkeys datalist) in
  for_each uniquekeys (λ metric, writerow out (rowlines metric datalist)).

(** ** The command line and [main] *)

(** The namespace [parser.parse_args()] returns. *)
Record args := Args {
  files : option string;
  metriclist : list string;
  output : string;
  perfspect : bool;
}.

(** The reader [main] calls on a file name: [csv2json] under [--perfspect],
    else [excel2json] with its default sheet. *)
Definition read (perfspect : bool) (filename : string) : M dict :=
  if perfspect then csv2json filename
  else excel2json filename "system view".

(** The loop of [main] over [filenames], which grows [jsondata] and
    [fields]. *)
Fixpoint load (perfspect : bool) (filenames : list string)
    (jsondata : list dict) (fields : list value)
    : M (list dict * list value) :=
  match filenames with
  | [] => mret (jsondata, fields)
  | filename :: rest =>
      data ← read perfspect filename;
      load perfspect rest (jsondata ++ [data]) (fields ++ [VStr filename])
  end.

Definition comma : Ascii.ascii := Ascii.ascii_of_nat 44.

Definition newline : string := String (Ascii.ascii_of_nat 10) EmptyString.

Definition main (a : args) : M unit :=
  filenames ← match files a with
              | Some f =>
                  if Str.truthy f then mret (Str.split comma f)
                  else raise (SystemError "-f or --files is a required flag")
              | None => raise (SystemError "-f or --files is a required flag")
              end;
  print [PStr "comparing Files: "; PList filenames];;
  '(jsondata, fields) ← load (perfspect a) filenames [] [VStr "Metric"];
  match metriclist a with
  | _ :: _ =>
      let metriclist :=
        if bool_decide (metriclist a = ["d"]) then [] else metriclist a in
      compare_metrics (VStr <$> metriclist) jsondata fields (output a)
  | [] => compare_metrics_all jsondata fields (output a)
  end;;
  print [PStr (newline +:+ "Data compared and stored at"); PStr (output a)].

(** ** The process

    What the interpreter does with the result of the script: a return and
    [SystemExit()] end with status 0; [SystemExit(n)] with status [n];
    [SystemExit(msg)] prints [msg] and ends with status 1; any other
    exception prints its traceback and ends with status 1. (The script
    exits with no integer but 1.) *)

Inductive diagnostic :=
| Message (msg : string)
| Traceback (e : exn).

Record outcome := Outcome {
  exit_status : Z;
  stderr : option diagnostic;
}.

Definition exit_of (r : result unit) : outcome :=
  match r with
  | Ok _ => Outcome 0 None
  | Raise (SystemExit ExitNone) => Outcome 0 None
  | Raise (SystemExit (ExitInt n)) => Outcome n None
  | Raise (SystemExit (ExitStr msg)) => Outcome 1 (Some (Message msg))
  | Raise e => Outcome 1 (Some (Traceback e))
  end.

(** Running the script with the parsed arguments [a] in the world [w]. *)
Definition script (a : args) (w : world) : outcome * world :=
  let (r, w') := main a w in (exit_of r, w').

End Model.

Arguments Ok {A} a.
Arguments Raise {A} e.
Abbreviation dict num := (Dict.t (@value num) (@value num)).

(** ** A concrete instance

    Numbers as decimal fractions [(m, k)], standing for [m / 10^k] with no
    trailing zero in the fraction, and [float] on plain decimal literals
    ([digits], [digits.digits], [digits.], [.digits]); sets listed in the
    order of first occurrence. Used to run the model on examples. *)

Module Demo.

Definition decimal : Type := N * nat.

Definition digit (c : Ascii.ascii) : option N :=
  let n := Ascii.N_of_ascii c in
  if ((48 <=? n) && (n <=? 57))%N then Some (n - 48)%N else None.

Fixpoint digits (s : string) (acc : N) : option N :=
  match s with
  | EmptyString => Some acc
  | String c s' => d ← digit c; digits s' (acc * 10 + d)%N
  end.

Fixpoint normalize (m : N) (k : nat) : decimal :=
  match k with
  | O => (m, O)
  | S k' => if (m mod 10 =? 0)%N then normalize (m / 10)%N k' else (m, k)
  end.

Definition float_of_str (s : string) : option decimal :=
  match Str.split (Ascii.ascii_of_nat 46) s with
  | [i] =>
      if Str.truthy i then m ← digits i 0%N; Some (m, O) else None
  | [i; f] =>
      if Str.truthy i || Str.truthy f
      then m ← digits (i +:+ f) 0%N; Some (normalize m (String.length f))
      else None
  | _ => None
  end.

Definition list_of_set (l : list (@value decimal)) : list (@value decimal) :=
  remove_dups l.

Definition text_file (rows : list (list string)) : @input_file decimal :=
  InputFile true (inl "Unsupported format, or corrupt file") (Some rows).

Definition xls_file (sheets : list (string * list (list (@value decimal))))
    : @input_file decimal :=
  InputFile true (inr sheets) None.

Definition world_of (files : list (string * @input_file decimal))
    : @world decimal :=
  World (list_to_map files) (λ _, true) ∅ [].

Definition read := @read decimal _ float_of_str.
Definition main := @main decimal _ float_of_str list_of_set.
Definition script := @script decimal _ float_of_str list_of_set.

(** The two files of the end-to-end scenario. *)
Definition scenario : @world decimal :=
  world_of
    [ ("A", text_file [ ["metrics"; "avg"]; ["metric_CPI"; "1.5"] ]);
      ("B", text_file [ ["metrics"; "avg"]; ["metric_CPI"; "2.0"];
                        ["metric_TMA_Frontend"; "0.3"] ]) ].

(** The datasets [csv2json] makes of the two files. *)
Definition dataA : dict decimal :=
  [ (VStr "metric_CPI", VNum (15%N, 1)) ].

Definition dataB : dict decimal :=
  [ (VStr "metric_CPI", VNum (2%N, O));
    (VStr "metric_TMA_Frontend", VNum (3%N, 1)) ].

(** Command lines over the scenario: an explicit list, the predefined
    list, every metric, a destination that is no CSV file, a path that does
    not exist, and one file alone. *)
Definition explicit_args : args :=
  Args (Some "A,B") ["metric_CPI"; "metric_TMA_Frontend"; "metric_none"]
       "out.csv" true.

Definition predefined_args : args := Args (Some "B,A") ["d"] "out.csv" true.

Definition union_args : args := Args (Some "A,B") [] "out.csv" true.

Definition txt_args : args := Args (Some "A,B") [] "result.txt" true.

Definition unreadable_args : args := Args (Some "A,C") [] "out.csv" true.

Definition single_args : args := Args (Some "B") [] "out.csv" true.

(** A Header-CSV file whose header has no [metrics] column, and a file with
    two rows for one metric. *)
Definition no_metrics_column : @world decimal :=
  world_of [ ("A", text_file [ ["name"; "avg"]; ["metric_CPI"; "1.5"] ]) ].

Definition duplicates : @input_file decimal :=
  text_file [ ["metrics"; "avg"]; ["metric_CPI"; "1.5"];
              ["metric_TMA_Frontend"; "0.3"]; ["metric_CPI"; "2.0"] ].

Definition with_duplicates : @world decimal :=
  world_of [ ("D", duplicates) ].

(** A Header-CSV file with the same header and no data row. *)
Definition header_only : @world decimal :=
  world_of [ ("A", text_file [ ["name"; "avg"] ]) ].

(** A workbook without the sheet [system view], and a Header-CSV file
    with an [avg] cell that is no number. *)
Definition other_failures : @world decimal :=
  world_of
    [ ("W", xls_file [ ("Sheet1", [ [VStr "name"; VStr "value"] ]) ]);
      ("N", text_file [ ["metrics"; "avg"]; ["metric_CPI"; "fast"] ]) ].

(** A first dataset with a name the predefined list leaves out. *)
Definition dataC : dict decimal :=
  [ (VStr "metric_branch mispredict ratio", VNum (1%N, 2));
    (VStr "metric_TMA_Frontend", VNum (3%N, 1));
    (VStr "metric_CPI", VNum (2%N, O)) ].

(** A workbook whose sheet [system view] has a header row and three data
    rows, two of them for one metric; a workbook whose sheet has one
    column; a dataset with a number as a key. *)
Definition system_view : list (list (@value decimal)) :=
  [ [VStr "metric"; VStr "value"];
    [VStr "metric_CPI"; VNum (15%N, 1)];
    [VStr "metric_TMA_Frontend"; VNum (3%N, 1)];
    [VStr "metric_CPI"; VNum (2%N, O)] ].

Definition short_view : list (list (@value decimal)) :=
  [ [VStr "metric"];
    [VStr "metric_CPI"];
    [VStr "metric_TMA_Frontend"] ].

Definition workbooks : @world decimal :=
  world_of
    [ ("X", xls_file [ ("summary", []); ("system view", system_view) ]);
      ("S", xls_file [ ("system view", short_view) ]);
      ("W", xls_file [ ("Sheet1", [ [VStr "name"; VStr "value"] ]) ]) ].

Definition numeric_key : dict decimal :=
  [ (VStr "metric_CPI", VNum (2%N, O)); (VNum (7%N, O), VStr "seven") ].

(** Header-CSV files: a good one, one whose header has no [avg] column,
    one with a row that stops before its [avg] cell. *)
Definition mixed : @world decimal :=
  world_of
    [ ("B", text_file [ ["metrics"; "avg"]; ["metric_CPI"; "2.0"];
                        ["metric_TMA_Frontend"; "0.3"] ]);
      ("M", text_file [ ["metrics"; "mean"]; []; ["metric_CPI"; "2.0"] ]);
      ("T", text_file [ ["metrics"; "avg"]; ["metric_CPI"; "2.0"];
                        ["metric_TMA_Frontend"] ]);
      ("E", text_file [ ["name"; "value"]; []; [] ]) ].

Definition mixed_args : args := Args (Some "B,M,T") [] "out.csv" true.

End Demo.

(** * Properties *)

(** ** Strings *)

Lemma split_cons (sep : Ascii.ascii) (s : string) :
  ∃ h t, Str.split sep s = h :: t.
Proof.
  induction s as [|c s IH]; simpl; [by eauto|].
  destruct (Ascii.eqb c sep); [by eauto|].
  destruct IH as (h & t & ->). eauto.
Qed.

Lemma split_single (sep : Ascii.ascii) (s : string) :
  Str.contains sep s = false → Str.split sep s = [s].
Proof.
  induction s as [|c s IH]; simpl; [done|].
  destruct (Ascii.eqb c sep); simpl; [done|].
  intros H. by rewrite IH.
Qed.

(** ** Dictionaries *)

Section DictFacts.
Context {K V : Type} `{!EqDecision K}.
Implicit Types (d : Dict.t K V) (k : K) (v : V).

Lemma get_None k d : Dict.get k d = None ↔ k ∉ Dict.keys d.
Proof.
  induction d as [|[k' v'] d IH]; simpl.
  - split; [intros _; apply not_elem_of_nil | done].
  - rewrite not_elem_of_cons. destruct (decide (k' = k)) as [->|Hne].
    + split; [done | by intros [? _]].
    + rewrite IH. split; [by intros ?; split | by intros [_ ?]].
Qed.

Lemma get_Some k d : is_Some (Dict.get k d) ↔ k ∈ Dict.keys d.
Proof.
  rewrite <-not_eq_None_Some, get_None.
  split; [apply dec_stable | by intros ? ?].
Qed.

Lemma mem_get k d : Dict.mem k d = true ↔ is_Some (Dict.get k d).
Proof. unfold Dict.mem. by rewrite bool_decide_eq_true, get_Some. Qed.

Lemma get_set_eq k v d : Dict.get k (Dict.set k v d) = Some v.
Proof.
  induction d as [|[k' v'] d IH]; simpl.
  - by rewrite decide_True.
  - destruct (decide (k' = k)) as [->|Hne]; simpl.
    + by rewrite decide_True.
    + by rewrite decide_False.
Qed.

Lemma get_set_ne k k' v d :
  k ≠ k' → Dict.get k' (Dict.set k v d) = Dict.get k' d.
Proof.
  intros Hne. induction d as [|[k0 v0] d IH]; simpl.
  - by rewrite decide_False.
  - destruct (decide (k0 = k)) as [->|Hne0]; simpl.
    + by rewrite !decide_False.
    + by rewrite IH.
Qed.

(** After a run of assignments, a key holds the value of the last
    assignment to it. *)
Lemma get_assignments (kvs : list (K * V)) i k v d :
  kvs !! i = Some (k, v) →
  (∀ j kv, i < j → kvs !! j = Some kv → kv.1 ≠ k) →
  Dict.get k (foldl (λ d kv, Dict.set kv.1 kv.2 d) d kvs) = Some v.
Proof.
  revert i d. induction kvs as [|[k0 v0] kvs IH]; intros i d Hi Hlast.
  - by rewrite lookup_nil in Hi.
  - simpl. destruct i as [|i]; simpl in Hi.
    + injection Hi as -> ->.
      assert (∀ d', Dict.get k d' = Some v →
        Dict.get k (foldl (λ d kv, Dict.set kv.1 kv.2 d) d' kvs) = Some v) as Hkeep.
      { assert (∀ j kv, kvs !! j = Some kv → kv.1 ≠ k) as Hne.
        { intros j kv Hj. apply (Hlast (S j) kv); [lia | done]. }
        clear -Hne. induction kvs as [|[k1 v1] kvs IH]; intros d' Hd'; [done|].
        simpl. apply IH.
        - intros j kv Hj. by apply (Hne (S j)).
        - rewrite get_set_ne; [done|]. by apply (Hne 0 (k1, v1)). }
      apply Hkeep, get_set_eq.
    + apply (IH i); [done|].
      intros j kv Hij Hj. apply (Hlast (S j) kv); [lia | done].
Qed.

Lemma keys_set k v d k' :
  k' ∈ Dict.keys (Dict.set k v d) ↔ k' = k ∨ k' ∈ Dict.keys d.
Proof.
  unfold Dict.keys. induction d as [|[k0 v0] d IH]; simpl.
  - rewrite list_elem_of_singleton, elem_of_nil. tauto.
  - destruct (decide (k0 = k)) as [->|Hne]; simpl.
    + rewrite !elem_of_cons. tauto.
    + rewrite !elem_of_cons, IH. tauto.
Qed.

Lemma keys_of_pairs (kvs : list (K * V)) k :
  k ∈ Dict.keys (Dict.of_pairs kvs) ↔ k ∈ kvs.*1.
Proof.
  unfold Dict.of_pairs.
  assert (∀ d, k ∈ Dict.keys (foldl (λ d kv, Dict.set kv.1 kv.2 d) d kvs)
               ↔ k ∈ kvs.*1 ∨ k ∈ Dict.keys d) as H.
  { induction kvs as [|[k0 v0] kvs IH]; intros d; simpl.
    - rewrite elem_of_nil. tauto.
    - rewrite IH, keys_set, elem_of_cons. tauto. }
  rewrite H. change (Dict.keys (K:=K) (V:=V) []) with (@nil K).
  rewrite elem_of_nil. tauto.
Qed.

Lemma keys_set_each (l : list K) v d k :
  k ∈ Dict.keys (foldl (λ d key, Dict.set key v d) d l)
  ↔ k ∈ l ∨ k ∈ Dict.keys d.
Proof.
  revert d. induction l as [|k0 l IH]; intros d; simpl.
  - rewrite elem_of_nil. tauto.
  - rewrite IH, keys_set, elem_of_cons. tauto.
Qed.

End DictFacts.

Lemma fst_zip_take {A B} (l : list A) (k : list B) :
  (zip l k).*1 = take (length k) l.
Proof.
  revert k. induction l as [|x l IH]; intros [|y k]; simpl; try done.
  by rewrite IH.
Qed.

(** The keys of a [DictReader] row are the field names, whatever the
    length of the row. *)
Lemma DictReader_row_keys (fieldnames row : list string) (k : string) :
  k ∈ Dict.keys (DictReader_row fieldnames row) ↔ k ∈ fieldnames.
Proof.
  unfold DictReader_row.
  rewrite keys_set_each, keys_of_pairs, fst_zip_take, length_fmap.
  rewrite <-(take_drop (length row) fieldnames) at 3.
  rewrite elem_of_app. tauto.
Qed.

(** ** Rows and tables *)

Section Facts.
Context {num : Type} `{!EqDecision num}.
Variable float_of_str : string → option num.
Variable list_of_set : list (@value num) → list (@value num).
Implicit Types (w : @world num) (metric : @value num) (data : dict num)
  (datalist : list (dict num)) (fields : list (@value num)) (out : string).

Lemma rowlines_cons metric datalist :
  rowlines metric datalist = metric :: (cell metric <$> datalist).
Proof.
  unfold rowlines.
  assert (∀ acc, foldl (λ rowlines data, rowlines ++ [cell metric data]) acc datalist
            = acc ++ (cell metric <$> datalist)) as H; [|by rewrite H].
  induction datalist as [|d dl IH]; intros acc; simpl.
  - by rewrite app_nil_r.
  - by rewrite IH, <-app_assoc.
Qed.

Lemma rowlines_length metric datalist :
  length (rowlines metric datalist) = S (length datalist).
Proof. by rewrite rowlines_cons; simpl; rewrite length_fmap. Qed.

Lemma rowlines_lookup metric datalist i data :
  datalist !! i = Some data →
  rowlines metric datalist !! S i = Some (cell metric data).
Proof.
  intros Hi. rewrite rowlines_cons. simpl.
  by rewrite list_lookup_fmap, Hi.
Qed.

Lemma set_outputs_id w : set_outputs (outputs w) w = w.
Proof. by destruct w. Qed.

(** Writing one row per element of [l] to the open file at [out]. *)
Lemma for_each_writerow {A} (f : A → list (@value num)) out (l : list A) w t :
  outputs w !! out = Some t →
  for_each l (λ x, writerow out (f x)) w
  = (Ok (), set_outputs (<[out := t ++ (f <$> l)]> (outputs w)) w).
Proof.
  revert w t. induction l as [|x l IH]; intros w t Ht; simpl.
  - rewrite app_nil_r, insert_id by done. by rewrite set_outputs_id.
  - unfold mbind, M_bind, writerow at 1.
    erewrite IH; last first.
    { simpl. rewrite lookup_alter_eq, Ht. done. }
    simpl. unfold set_outputs; simpl.
    by rewrite insert_alter_eq, <-app_assoc.
Qed.

(** [compare_metrics], step by step: the selection, the line printed, the
    check of the extension, the opening of the file, the rows. *)
Lemma compare_metrics_eq (metriclist : list (@value num)) datalist fields out w :
  compare_metrics metriclist datalist fields out w =
  match select_metrics metriclist datalist with
  | Raise e => (Raise e, w)
  | Ok selected =>
      let w1 := set_stdout (stdout w ++ [[PStr "comparing predefined metrics only"]]) w in
      if Str.endswith out ".csv" then
        if can_create w out then
          (Ok (), set_outputs
                    (<[out := fields :: ((λ m, rowlines m datalist) <$> selected)]>
                       (outputs w)) w1)
        else (Raise OSError, w1)
      else (Raise (SystemError (out +:+ " isn't a csv format!")), w1)
  end.
Proof.
  unfold compare_metrics, mbind, M_bind, lift.
  destruct (select_metrics metriclist datalist) as [selected|e]; [|done].
  simpl. unfold invalid_filename.
  destruct (Str.endswith out ".csv"); simpl; [|done].
  unfold open_w; simpl. destruct (can_create w out); [|done].
  simpl. erewrite for_each_writerow; last first.
  { simpl. by rewrite lookup_alter_eq, lookup_insert_eq. }
  unfold set_outputs; simpl.
  by rewrite insert_alter_eq, insert_insert_eq.
Qed.

Lemma compare_metrics_all_eq datalist fields out w :
  compare_metrics_all list_of_set datalist fields out w =
  let w1 := set_stdout (stdout w ++ [[PStr "comparing all metrics in the summary sheet"]]) w in
  if Str.endswith out ".csv" then
    if can_create w out then
      (Ok (), set_outputs
                (<[out := fields :: ((λ m, rowlines m datalist)
                                       <$> list_of_set (allkeys datalist))]>
                   (outputs w)) w1)
    else (Raise OSError, w1)
  else (Raise (SystemError (out +:+ " isn't a csv format!")), w1).
Proof.
  unfold compare_metrics_all, mbind, M_bind.
  simpl. unfold invalid_filename.
  destruct (Str.endswith out ".csv"); simpl; [|done].
  unfold open_w; simpl. destruct (can_create w out); [|done].
  simpl. erewrite for_each_writerow; last first.
  { simpl. by rewrite lookup_alter_eq, lookup_insert_eq. }
  unfold set_outputs; simpl.
  by rewrite insert_alter_eq, insert_insert_eq.
Qed.

(** ** Selection *)

Lemma is_predefined_text (s : string) :
  is_predefined (VStr (num:=num) s)
  = Ok (bool_decide (Str.startswith s "metric_TMA" ∨ s ∈ basic_metrics)).
Proof.
  unfold is_predefined. f_equal.
  destruct (Str.startswith s "metric_TMA") eqn:Hs.
  - rewrite orb_true_l. symmetry. apply bool_decide_eq_true_2. by left.
  - rewrite orb_false_l. apply bool_decide_ext. split.
    + intros Hin. right. revert Hin. apply list_elem_of_fmap_inj_2.
      by intros ?? [= ->].
    + intros [[]|Hin]. by apply list_elem_of_fmap_2.
Qed.

Lemma comprehension_text (names : list string) :
  comprehension is_predefined (VStr (num:=num) <$> names)
  = Ok (VStr <$> filter (λ s, Str.startswith s "metric_TMA" ∨ s ∈ basic_metrics) names).
Proof.
  induction names as [|s names IH]; [done|].
  rewrite fmap_cons. cbn [comprehension]. rewrite IH, is_predefined_text.
  rewrite filter_cons. cbn [mbind result_bind mret result_ret].
  rewrite bool_decide_decide. by destruct (decide _).
Qed.

Lemma foldl_snoc {A} (l acc : list A) :
  foldl (λ acc k, acc ++ [k]) acc l = acc ++ l.
Proof.
  revert acc. induction l as [|x l IH]; intros acc; simpl.
  - by rewrite app_nil_r.
  - by rewrite IH, <-app_assoc.
Qed.

Lemma allkeys_concat datalist :
  allkeys datalist = mjoin (Dict.keys <$> datalist).
Proof.
  unfold allkeys.
  assert (∀ acc, foldl (λ allkeys data, foldl (λ allkeys k, allkeys ++ [k]) allkeys (Dict.keys data)) acc datalist
            = acc ++ mjoin (Dict.keys <$> datalist)) as H; [|by rewrite H].
  induction datalist as [|d dl IH]; intros acc; simpl.
  - by rewrite app_nil_r.
  - by rewrite IH, foldl_snoc, <-app_assoc.
Qed.

Lemma elem_of_allkeys k datalist :
  k ∈ allkeys datalist ↔ ∃ data, data ∈ datalist ∧ k ∈ Dict.keys data.
Proof.
  rewrite allkeys_concat, list_elem_of_join. split.
  - intros (l & Hk & Hl). apply list_elem_of_fmap in Hl as (d & -> & Hd). eauto.
  - intros (d & Hd & Hk). exists (Dict.keys d). split; [done|].
    by apply list_elem_of_fmap_2.
Qed.

(** ** Readers *)

Ltac case_loops :=
  repeat match goal with
  | |- context [csv2json_rows ?f ?r ?d] =>
      destruct (csv2json_rows f r d) as [|[]]; simpl
  | |- context [excel2json_rows ?r ?d] =>
      destruct (excel2json_rows r d) as [|[]]; simpl
  | |- context [Dict.get ?k ?wb] => destruct (Dict.get k wb); simpl
  end.

Ltac unfold_readers :=
  unfold read, csv2json, excel2json, try_except, mbind, M_bind, os_access,
    open_csv, xlrd_open_workbook, lift, raise, print, sheet_by_name.

(** The result of a reader is decided by the files on disk. *)
Lemma read_result p filename w w0 :
  disk w0 = disk w →
  (read float_of_str p filename w0).1 = (read float_of_str p filename w).1.
Proof.
  intros Hdisk. destruct p; unfold_readers; simpl; rewrite Hdisk;
    destruct (disk w !! filename) as [[[] [msg|wb] [rows|]]|] eqn:Hf; simpl;
    rewrite ?Hdisk, ?Hf; simpl; try done; case_loops; done.
Qed.

(** A reader touches neither the disk nor the files written; when it
    returns, nothing was printed either. *)
Lemma read_world p filename w :
  let r := read float_of_str p filename w in
  disk r.2 = disk w ∧ can_create r.2 = can_create w ∧ outputs r.2 = outputs w
  ∧ (∀ data, r.1 = Ok data → r.2 = w).
Proof.
  destruct p; unfold_readers; simpl;
    destruct (disk w !! filename) as [[[] [msg|wb] [rows|]]|] eqn:Hf; simpl;
    rewrite ?Hf; simpl; try done; case_loops; done.
Qed.

Lemma read_frame p filename w w0 data :
  disk w0 = disk w →
  read float_of_str p filename w = (Ok data, w) →
  read float_of_str p filename w0 = (Ok data, w0).
Proof.
  intros Hdisk Hr. pose proof (read_result p filename w w0 Hdisk) as H1.
  rewrite Hr in H1. simpl in H1.
  destruct (read_world p filename w0) as (_ & _ & _ & H2).
  specialize (H2 data H1).
  destruct (read float_of_str p filename w0) as [r w']. simpl in *.
  by subst.
Qed.

(** A path that fails [os.access(path, os.R_OK)] stops either reader. *)
Lemma read_not_accessible p filename w :
  default false (access_R_OK <$> disk w !! filename) = false →
  read float_of_str p filename w
  = (Raise (SystemExit (ExitStr (filename +:+ " not accessible"))), w).
Proof.
  intros Hacc. destruct p; unfold_readers; simpl;
    destruct (disk w !! filename) as [[[] ? ?]|] eqn:Hf; simpl in *; done.
Qed.

(** ** Loading *)

Lemma load_ok p (filenames : list string) (loaded : list (dict num)) w :
  Forall2 (λ filename data, read float_of_str p filename w = (Ok data, w))
    filenames loaded →
  ∀ jsondata fields,
    load float_of_str p filenames jsondata fields w
    = (Ok (jsondata ++ loaded, fields ++ (VStr <$> filenames)), w).
Proof.
  induction 1 as [|filename data filenames loaded Hr _ IH];
    intros jsondata fields; simpl.
  - by rewrite !app_nil_r.
  - unfold mbind, M_bind. rewrite Hr, IH.
    by rewrite <-!app_assoc.
Qed.

Lemma load_fail p (filenames : list string) w filename e w1 :
  filename ∈ filenames →
  read float_of_str p filename w = (Raise e, w1) →
  ∀ jsondata fields, ∃ e' w',
    load float_of_str p filenames jsondata fields w = (Raise e', w')
    ∧ outputs w' = outputs w.
Proof.
  intros Hin Hr. induction filenames as [|f0 filenames IH];
    intros jsondata fields; [by apply elem_of_nil in Hin|].
  simpl. unfold mbind, M_bind.
  destruct (read_world p f0 w) as (_ & _ & Hout & Hok).
  destruct (read float_of_str p f0 w) as [[data|e0] w0] eqn:Hr0; simpl in *.
  - rewrite (Hok data eq_refl) in *.
    apply elem_of_cons in Hin as [->|Hin]; [congruence|].
    by apply IH.
  - eauto.
Qed.

(** ** The run of [main] *)

(** Once every file is read, [main] goes on to the comparison with the
    datasets and the header it has built. *)
Lemma main_loaded (a : args) w f (loaded : list (dict num)) :
  files a = Some f →
  Str.truthy f = true →
  Forall2 (λ filename data,
             read float_of_str (perfspect a) filename w = (Ok data, w))
    (Str.split comma f) loaded →
  main float_of_str list_of_set a w =
  let filenames := Str.split comma f in
  let w0 := set_stdout (stdout w ++ [[PStr "comparing Files: "; PList filenames]]) w in
  let fields := VStr "Metric" :: (VStr <$> filenames) in
  match
    match metriclist a with
    | _ :: _ =>
        compare_metrics
          (VStr <$> (if bool_decide (metriclist a = ["d"]) then []
                     else metriclist a))
          loaded fields (output a) w0
    | [] => compare_metrics_all list_of_set loaded fields (output a) w0
    end
  with
  | (Ok _, w1) =>
      (Ok (), set_stdout
                (stdout w1 ++ [[PStr (newline +:+ "Data compared and stored at");
                                PStr (output a)]]) w1)
  | (Raise e, w1) => (Raise e, w1)
  end.
Proof.
  intros Hf Ht Hread. unfold main, mbind, M_bind.
  rewrite Hf, Ht. simpl.
  erewrite load_ok; last first.
  { eapply Forall2_impl; [exact Hread|]. intros filename data Hr.
    eapply read_frame; [|exact Hr]. done. }
  simpl. by destruct (metriclist a).
Qed.

(** The selection of [main]: all the keys without a metric list, else the
    selection of [compare_metrics], with no list for ["d"]. *)
Lemma main_writes (a : args) w f (loaded : list (dict num)) selected :
  files a = Some f →
  Str.truthy f = true →
  Forall2 (λ filename data,
             read float_of_str (perfspect a) filename w = (Ok data, w))
    (Str.split comma f) loaded →
  Str.endswith (output a) ".csv" = true →
  can_create w (output a) = true →
  match metriclist a with
  | _ :: _ =>
      select_metrics
        (VStr <$> (if bool_decide (metriclist a = ["d"]) then []
                   else metriclist a)) loaded
  | [] => Ok (list_of_set (allkeys loaded))
  end = Ok selected →
  ∃ w', main float_of_str list_of_set a w = (Ok (), w')
    ∧ outputs w' =
        <[output a := (VStr "Metric" :: (VStr <$> Str.split comma f))
                      :: ((λ m, rowlines m loaded) <$> selected)]> (outputs w).
Proof.
  intros Hf Ht Hread Hcsv Hcreate Hsel.
  rewrite (main_loaded a w f loaded Hf Ht Hread). cbn zeta.
  destruct (metriclist a) as [|m ms].
  - rewrite compare_metrics_all_eq. cbn zeta. rewrite Hcsv. simpl.
    rewrite Hcreate. injection Hsel as <-. eauto.
  - rewrite compare_metrics_eq, Hsel. cbn zeta. rewrite Hcsv. simpl.
    rewrite Hcreate. eauto.
Qed.

Lemma rows_heads datalist (selected : list (@value num)) :
  head <$> ((λ m, rowlines m datalist) <$> selected) = Some <$> selected.
Proof.
  rewrite <-list_fmap_compose. apply list_fmap_ext.
  intros _ m _. simpl. by rewrite rowlines_cons.
Qed.

Lemma rows_width datalist (selected : list (@value num)) :
  Forall (λ row, length row = S (length datalist))
    ((λ m, rowlines m datalist) <$> selected).
Proof.
  apply Forall_fmap, Forall_forall. intros m _. apply rowlines_length.
Qed.

(** The selection [main] asks for always exists, provided that in
    predefined mode the names of the first dataset are text. *)
Lemma main_selection (a : args) (loaded : list (dict num)) :
  loaded ≠ [] →
  (metriclist a = ["d"] →
   ∀ first, loaded !! 0 = Some first →
            ∃ names, Dict.keys first = VStr <$> names) →
  ∃ selected,
    match metriclist a with
    | _ :: _ =>
        select_metrics
          (VStr <$> (if bool_decide (metriclist a = ["d"]) then []
                     else metriclist a)) loaded
    | [] => Ok (list_of_set (allkeys loaded))
    end = Ok selected.
Proof.
  intros Hne Htext. destruct (metriclist a) as [|m ms] eqn:Hm; [by eauto|].
  case_bool_decide as Hd.
  - destruct loaded as [|first rest]; [done|].
    destruct (Htext Hd first eq_refl) as [names Hnames].
    simpl. unfold getindex. simpl. rewrite Hnames, comprehension_text. eauto.
  - simpl. eauto.
Qed.

(** ** The loop of [csv2json] *)

Lemma csv2json_rows_ok (rows : list (Dict.t string (option string))) :
  (∀ row, row ∈ rows → ∃ kv, assigns float_of_str row kv) →
  ∀ data, ∃ kvs,
    Forall2 (assigns float_of_str) rows kvs
    ∧ csv2json_rows float_of_str rows data
      = Ok (foldl (λ d kv, Dict.set kv.1 kv.2 d) data kvs).
Proof.
  induction rows as [|row rows IH]; intros Hrows data.
  - exists []. by split.
  - destruct (Hrows row) as [kv Hkv]; [by left|].
    destruct (IH (λ r Hr, Hrows r (list_elem_of_further _ _ _ Hr))
                 (Dict.set kv.1 kv.2 data)) as (kvs & Hall & Hloop).
    exists (kv :: kvs). split; [by constructor|].
    destruct Hkv as (key & avg & x & Hkey & Havg & Hx & ->).
    simpl. rewrite Hkey, Havg. simpl. by rewrite Hx.
Qed.

(** ** A header without the [metrics] or the [avg] column *)

Lemma getitem_missing (fieldnames row : list string) (k : string) :
  k ∉ fieldnames →
  getitem (DictReader_row fieldnames row) k = Raise (KeyError k).
Proof.
  intros Hk. unfold getitem.
  assert (Dict.get k (DictReader_row fieldnames row) = None) as ->; [|done].
  apply get_None. by rewrite DictReader_row_keys.
Qed.

Lemma getitem_present (fieldnames row : list string) (k : string) :
  k ∈ fieldnames →
  ∃ v, getitem (DictReader_row fieldnames row) k = Ok v.
Proof.
  intros Hk. unfold getitem.
  destruct (proj2 (get_Some k (DictReader_row fieldnames row))) as [v ->];
    [by rewrite DictReader_row_keys | eauto].
Qed.

(** The first data row of such a file raises [KeyError], which [csv2json]
    turns into [SystemExit()]. *)
Lemma csv2json_missing_column filename w file fieldnames rows row :
  disk w !! filename = Some file →
  access_R_OK file = true →
  csv_reader file = Some (fieldnames :: rows) →
  row ∈ rows → row ≠ [] →
  "metrics" ∉ fieldnames ∨ "avg" ∉ fieldnames →
  csv2json float_of_str filename w = (Raise (SystemExit ExitNone), w).
Proof.
  intros Hfile Hacc Hlines Hrow Hne Hmissing.
  assert (∃ key, csv2json_rows float_of_str (DictReader (fieldnames :: rows)) []
                 = Raise (KeyError key)) as [key Hloop].
  { simpl. assert (row ∈ filter (λ row, row ≠ []) rows) as Hin.
    { by apply list_elem_of_filter. }
    destruct (filter (λ row, row ≠ []) rows) as [|row0 rows0];
      [by apply elem_of_nil in Hin|].
    rewrite fmap_cons. simpl.
    destruct (decide ("metrics" ∈ fieldnames)) as [Hm|Hm].
    - destruct (getitem_present fieldnames row0 "metrics" Hm) as [v ->].
      destruct Hmissing as [?|Ha]; [done|].
      rewrite (getitem_missing fieldnames row0 "avg" Ha). eauto.
    - rewrite (getitem_missing fieldnames row0 "metrics" Hm). eauto. }
  unfold csv2json, try_except, mbind, M_bind, os_access, open_csv, lift.
  rewrite Hfile. simpl. rewrite Hacc. simpl.
  rewrite Hfile, Hlines. simpl in *. by rewrite Hloop.
Qed.

(** With such a file as the one input, the script ends with status 0 and
    prints no diagnostic. *)
Lemma missing_column_exit (a : args) w f file fieldnames rows row :
  files a = Some f →
  Str.truthy f = true →
  Str.contains comma f = false →
  perfspect a = true →
  disk w !! f = Some file →
  access_R_OK file = true →
  csv_reader file = Some (fieldnames :: rows) →
  row ∈ rows → row ≠ [] →
  "metrics" ∉ fieldnames ∨ "avg" ∉ fieldnames →
  script float_of_str list_of_set a w
  = (Outcome 0 None,
     set_stdout (stdout w ++ [[PStr "comparing Files: "; PList [f]]]) w).
Proof.
  intros Hf Ht Hcomma Hp Hfile Hacc Hlines Hrow Hne Hmissing.
  unfold script, main, mbind, M_bind. rewrite Hf, Ht. simpl.
  rewrite (split_single comma f Hcomma). simpl. unfold mbind, M_bind.
  rewrite Hp. unfold read.
  erewrite csv2json_missing_column; [done | exact Hfile | done..].
Qed.

End Facts.



(** * Properties of the formatter *)

Section Formatter.
Context {num : Type} `{!EqDecision num}.
Variable float_of_str : string → option num.
Variable list_of_set : list (@value num) → list (@value num).
Implicit Types (w : @world num) (metric : @value num) (data : dict num)
  (datalist : list (dict num)) (fields : list (@value num)) (out : string).

(** C1. For every run over valid inputs (every file is read, the
    destination ends in [.csv] and can be created, and in predefined mode
    the metric names of the first dataset are text), [main] returns and the
    table written at the destination has the header [Metric, file1, ...]
    followed by one row per selected metric name, in the order of the
    selected list and beginning with that name; the header and every data
    row have exactly [1 + N] cells, [N] being the number of input files. *)
Theorem table_shape (a : args) w f (loaded : list (dict num)) :
  files a = Some f →
  Str.truthy f = true →
  Forall2 (λ filename data,
             read float_of_str (perfspect a) filename w = (Ok data, w))
    (Str.split comma f) loaded →
  Str.endswith (output a) ".csv" = true →
  can_create w (output a) = true →
  (metriclist a = ["d"] →
   ∀ first, loaded !! 0 = Some first →
            ∃ names, Dict.keys first = VStr <$> names) →
  let filenames := Str.split comma f in
  let header := VStr "Metric" :: (VStr <$> filenames) in
  ∃ w' selected rows,
    main float_of_str list_of_set a w = (Ok (), w')
    ∧ outputs w' !! output a = Some (header :: rows)
    ∧ match metriclist a with
      | _ :: _ =>
          select_metrics
            (VStr <$> (if bool_decide (metriclist a = ["d"]) then []
                       else metriclist a)) loaded
      | [] => Ok (list_of_set (allkeys loaded))
      end = Ok selected
    ∧ rows = (λ metric, rowlines metric loaded) <$> selected
    ∧ length rows = length selected
    ∧ head <$> rows = Some <$> selected
    ∧ Forall (λ row, length row = 1 + length filenames) (header :: rows).
Proof.
  intros Hf Ht Hread Hcsv Hcreate Htext filenames header.
  assert (length loaded = length filenames) as Hlen.
  { symmetry. by eapply Forall2_length. }
  assert (loaded ≠ []) as Hne.
  { destruct (split_cons comma f) as (h & t & Hs).
    subst filenames. rewrite Hs in Hlen. by destruct loaded. }
  destruct (main_selection list_of_set a loaded Hne Htext) as [selected Hsel].
  destruct (main_writes float_of_str list_of_set a w f loaded selected)
    as (w' & Hmain & Hout); try done.
  exists w', selected, ((λ metric, rowlines metric loaded) <$> selected).
  split_and!; try done.
  - by rewrite Hout, lookup_insert_eq.
  - by rewrite length_fmap.
  - apply rows_heads.
  - constructor.
    + subst header. simpl. by rewrite length_fmap.
    + rewrite <-Hlen. apply rows_width.
Qed.

(** C2. In predefined mode ([compare_metrics] called with an empty metric
    list), when the keys of the first dataset are the text names [names],
    the selected list is exactly the names that start with [metric_TMA] or
    are one of the four basic metrics, in the key order of the first
    dataset; any datasets whose first one has the same keys give the same
    selection, whatever the later datasets hold; and the rows written are
    the rows of that selection. *)
Theorem predefined_selection (first : dict num) (rest : list (dict num))
    (names : list string) fields out w :
  Dict.keys first = VStr <$> names →
  let selected : list (@value num) :=
    VStr <$> filter (λ s, Str.startswith s "metric_TMA" ∨ s ∈ basic_metrics)
               names in
  select_metrics [] (first :: rest) = Ok selected
  ∧ (∀ (first' : dict num) (rest' : list (dict num)),
       Dict.keys first' = Dict.keys first →
       select_metrics [] (first' :: rest') = Ok selected)
  ∧ (Str.endswith out ".csv" = true → can_create w out = true →
     ∃ w', compare_metrics [] (first :: rest) fields out w = (Ok (), w')
       ∧ outputs w' !! out
         = Some (fields :: ((λ metric, rowlines metric (first :: rest))
                              <$> selected))).
Proof.
  intros Hkeys selected.
  assert (∀ (first' : dict num) (rest' : list (dict num)),
            Dict.keys first' = Dict.keys first →
            select_metrics [] (first' :: rest') = Ok selected) as Hsel.
  { intros first' rest' Hk. simpl. unfold getindex. simpl.
    by rewrite Hk, Hkeys, comprehension_text. }
  split_and!; [by apply Hsel | done |].
  intros Hcsv Hcreate. rewrite compare_metrics_eq, (Hsel first rest eq_refl).
  cbn zeta. rewrite Hcsv, Hcreate. eexists. split; [done|].
  simpl. by rewrite lookup_insert_eq.
Qed.

(** C3. In union mode ([compare_metrics_all]), for any order the set of
    keys is listed in: with a destination that ends in [.csv] and can be
    created, the rows written are the rows of a list of names in which
    every name occurs once, and a name is in that list exactly when it is a
    key of at least one dataset. *)
Theorem union_selection datalist fields out w :
  (∀ l, NoDup (list_of_set l) ∧ ∀ x, x ∈ list_of_set l ↔ x ∈ l) →
  Str.endswith out ".csv" = true →
  can_create w out = true →
  ∃ w' names rows,
    compare_metrics_all list_of_set datalist fields out w = (Ok (), w')
    ∧ outputs w' !! out = Some (fields :: rows)
    ∧ rows = (λ metric, rowlines metric datalist) <$> names
    ∧ head <$> rows = Some <$> names
    ∧ NoDup names
    ∧ ∀ k, k ∈ names ↔ ∃ data, data ∈ datalist ∧ k ∈ Dict.keys data.
Proof.
  intros Hset Hcsv Hcreate.
  rewrite compare_metrics_all_eq. cbn zeta. rewrite Hcsv, Hcreate.
  eexists _, (list_of_set (allkeys datalist)), _.
  split_and!; [done | by simpl; rewrite lookup_insert_eq | done | ..].
  - apply rows_heads.
  - apply Hset.
  - intros k. destruct (Hset (allkeys datalist)) as [_ ->].
    apply elem_of_allkeys.
Qed.

(** C4. In explicit mode (a metric list that is neither empty nor the one
    token [d]), on valid inputs, the data rows written are the rows of the
    caller's names, one per name, in the caller's order and with
    repetitions; a name that is a key of no dataset has the row made of the
    name followed by [NA] in each of the [N] data columns. *)
Theorem explicit_selection (a : args) w f (loaded : list (dict num)) :
  files a = Some f →
  Str.truthy f = true →
  Forall2 (λ filename data,
             read float_of_str (perfspect a) filename w = (Ok data, w))
    (Str.split comma f) loaded →
  Str.endswith (output a) ".csv" = true →
  can_create w (output a) = true →
  metriclist a ≠ [] →
  metriclist a ≠ ["d"] →
  let filenames := Str.split comma f in
  let header := VStr "Metric" :: (VStr <$> filenames) in
  ∃ w' rows,
    main float_of_str list_of_set a w = (Ok (), w')
    ∧ outputs w' !! output a = Some (header :: rows)
    ∧ rows = (λ name, rowlines (VStr name) loaded) <$> metriclist a
    ∧ head <$> rows = (λ name, Some (VStr name)) <$> metriclist a
    ∧ ∀ name, name ∈ metriclist a →
        (∀ data, data ∈ loaded → VStr name ∉ Dict.keys data) →
        rowlines (VStr name) loaded
        = VStr name :: replicate (length filenames) (VStr "NA").
Proof.
  intros Hf Ht Hread Hcsv Hcreate Hne Hd filenames header.
  destruct (main_writes float_of_str list_of_set a w f loaded
              (VStr <$> metriclist a)) as (w' & Hmain & Hout); try done.
  { rewrite bool_decide_eq_false_2 by done.
    by destruct (metriclist a). }
  exists w', ((λ name, rowlines (VStr name) loaded) <$> metriclist a).
  split_and!; try done.
  - by rewrite Hout, lookup_insert_eq, <-list_fmap_compose.
  - rewrite <-list_fmap_compose. apply list_fmap_ext.
    intros _ name _. simpl. by rewrite rowlines_cons.
  - intros name _ Habsent. rewrite rowlines_cons. f_equal.
    assert (length loaded = length filenames) as <-.
    { symmetry. by eapply Forall2_length. }
    clear -Habsent. induction loaded as [|data loaded IH]; [done|].
    simpl. f_equal.
    + unfold cell. assert (Dict.get (VStr name) data = None) as ->; [|done].
      apply get_None, Habsent. by left.
    + apply IH. intros d Hd. apply Habsent. by right.
Qed.

(** The rows of a selection, cell by cell: one row per selected name, at
    the place of the name, beginning with it; in the column of a dataset,
    the value stored under the name, or [NA] if the name is no key. *)
Lemma rows_cells datalist (selected : list (@value num)) :
  let rows := (λ metric, rowlines metric datalist) <$> selected in
  length rows = length selected
  ∧ ∀ j metric, selected !! j = Some metric →
      ∃ row,
        rows !! j = Some row
        ∧ row !! 0 = Some metric
        ∧ ∀ i data, datalist !! i = Some data →
            (metric ∈ Dict.keys data →
             ∃ v, Dict.get metric data = Some v ∧ row !! S i = Some v)
            ∧ (metric ∉ Dict.keys data → row !! S i = Some (VStr "NA")).
Proof.
  cbn zeta. split; [by rewrite length_fmap|].
  intros j metric Hj. exists (rowlines metric datalist).
  split_and!.
  - by rewrite list_lookup_fmap, Hj.
  - by rewrite rowlines_cons.
  - intros i data Hi. rewrite (rowlines_lookup _ _ _ _ Hi). unfold cell. split.
    + intros Hin. apply get_Some in Hin as [v Hv]. rewrite Hv. eauto.
    + intros Hnin. apply get_None in Hnin. by rewrite Hnin.
Qed.

(** C5. With a destination that ends in [.csv] and can be created, both
    writers return, and the table written has, after the header, exactly
    one row per selected metric, at the place of the metric in the
    selection (the selection of [compare_metrics], and for
    [compare_metrics_all] the list of all keys). The row of a metric
    begins with its name, and for every dataset index [i] its cell at
    column [i + 1] is the value the dataset stores under that name when the
    name is one of its keys, and the text [NA] otherwise; the cell depends
    on dataset [i] alone, so what another dataset lacks leaves it as it
    is. *)
Theorem cell_policy (metriclist : list (@value num)) datalist fields out w :
  Str.endswith out ".csv" = true →
  can_create w out = true →
  (∀ selected,
     select_metrics metriclist datalist = Ok selected →
     ∃ w' rows,
       compare_metrics metriclist datalist fields out w = (Ok (), w')
       ∧ outputs w' !! out = Some (fields :: rows)
       ∧ length rows = length selected
       ∧ ∀ j metric, selected !! j = Some metric →
           ∃ row,
             rows !! j = Some row
             ∧ row !! 0 = Some metric
             ∧ ∀ i data, datalist !! i = Some data →
                 (metric ∈ Dict.keys data →
                  ∃ v, Dict.get metric data = Some v ∧ row !! S i = Some v)
                 ∧ (metric ∉ Dict.keys data →
                    row !! S i = Some (VStr "NA")))
  ∧ (∃ w' rows,
       compare_metrics_all list_of_set datalist fields out w = (Ok (), w')
       ∧ outputs w' !! out = Some (fields :: rows)
       ∧ length rows = length (list_of_set (allkeys datalist))
       ∧ ∀ j metric, list_of_set (allkeys datalist) !! j = Some metric →
           ∃ row,
             rows !! j = Some row
             ∧ row !! 0 = Some metric
             ∧ ∀ i data, datalist !! i = Some data →
                 (metric ∈ Dict.keys data →
                  ∃ v, Dict.get metric data = Some v ∧ row !! S i = Some v)
                 ∧ (metric ∉ Dict.keys data →
                    row !! S i = Some (VStr "NA"))).
Proof.
  intros Hcsv Hcreate. split.
  - intros selected Hsel.
    destruct (rows_cells datalist selected) as [Hlen Hcells].
    rewrite compare_metrics_eq, Hsel. cbn zeta. rewrite Hcsv, Hcreate.
    eexists _, _. split; [done|]. split; [|by split].
    simpl. by rewrite lookup_insert_eq.
  - destruct (rows_cells datalist (list_of_set (allkeys datalist)))
      as [Hlen Hcells].
    rewrite compare_metrics_all_eq. cbn zeta. rewrite Hcsv, Hcreate.
    eexists _, _. split; [done|]. split; [|by split].
    simpl. by rewrite lookup_insert_eq.
Qed.

(** C6. If the destination does not end in [.csv], neither writer returns
    and neither opens the destination: the tables on disk are the ones
    there were. [compare_metrics_all] raises the error that names the
    destination, and so does [compare_metrics] whenever its selection of
    metrics, which comes first, has not itself raised. *)
Theorem invalid_extension_no_write (metriclist : list (@value num))
    datalist fields out w :
  Str.endswith out ".csv" = false →
  (∃ e w', compare_metrics metriclist datalist fields out w = (Raise e, w')
     ∧ outputs w' = outputs w
     ∧ (∀ selected, select_metrics metriclist datalist = Ok selected →
                    e = SystemError (out +:+ " isn't a csv format!")))
  ∧ (∃ w', compare_metrics_all list_of_set datalist fields out w
           = (Raise (SystemError (out +:+ " isn't a csv format!")), w')
     ∧ outputs w' = outputs w).
Proof.
  intros Hcsv. split.
  - rewrite compare_metrics_eq.
    destruct (select_metrics metriclist datalist) as [selected|e].
    + cbn zeta. rewrite Hcsv. by eexists _, _.
    + by eexists _, _.
  - rewrite compare_metrics_all_eq. cbn zeta. rewrite Hcsv. by eexists.
Qed.

(** C8. If one of the input paths fails the readability check, or its
    reader raises on its content, then [main] raises inside the loading
    loop, whatever the other files are: the exception of [main] is the one
    the loop ends with, no comparison is started and the tables on disk are
    the ones there were. *)
Theorem reader_failure_aborts (a : args) w f filename :
  files a = Some f →
  Str.truthy f = true →
  filename ∈ Str.split comma f →
  default false (access_R_OK <$> disk w !! filename) = false
  ∨ (∃ e w1, read float_of_str (perfspect a) filename w = (Raise e, w1)) →
  ∃ e w',
    main float_of_str list_of_set a w = (Raise e, w')
    ∧ load float_of_str (perfspect a) (Str.split comma f) [] [VStr "Metric"]
        (set_stdout
           (stdout w ++ [[PStr "comparing Files: "; PList (Str.split comma f)]])
           w)
      = (Raise e, w')
    ∧ outputs w' = outputs w.
Proof.
  intros Hf Ht Hin Hbad.
  assert (∃ e w1, read float_of_str (perfspect a) filename w = (Raise e, w1))
    as (e0 & w1 & Hr).
  { destruct Hbad as [Hacc|?]; [|done].
    eexists _, _. by apply read_not_accessible. }
  set (w0 := set_stdout _ w).
  assert (∃ w2, read float_of_str (perfspect a) filename w0 = (Raise e0, w2))
    as [w2 Hr0].
  { pose proof (read_result float_of_str (perfspect a) filename w w0 eq_refl)
      as Hres.
    rewrite Hr in Hres. simpl in Hres.
    destruct (read float_of_str (perfspect a) filename w0) as [r w2].
    simpl in Hres. subst r. eauto. }
  destruct (load_fail float_of_str (perfspect a) _ w0 filename e0 w2 Hin Hr0
              [] [VStr "Metric"]) as (e & w' & Hload & Hout).
  exists e, w'. split_and!; [|done|done].
  unfold main, mbind, M_bind. rewrite Hf, Ht. simpl.
  fold w0. unfold mbind, M_bind in Hload. by rewrite Hload.
Qed.

(** C9. A [--files] argument that names one file is accepted: when the
    file is read, the destination ends in [.csv] and can be created (and in
    predefined mode the names of the dataset are text), the script ends
    with status 0 and the table written has the header [Metric, file] and
    rows of exactly two cells. *)
Theorem single_file_two_columns (a : args) w f data :
  files a = Some f →
  Str.truthy f = true →
  Str.contains comma f = false →
  read float_of_str (perfspect a) f w = (Ok data, w) →
  Str.endswith (output a) ".csv" = true →
  can_create w (output a) = true →
  (metriclist a = ["d"] → ∃ names, Dict.keys data = VStr <$> names) →
  ∃ w' rows,
    script float_of_str list_of_set a w = (Outcome 0 None, w')
    ∧ outputs w' !! output a = Some ([VStr "Metric"; VStr f] :: rows)
    ∧ Forall (λ row, length row = 2) ([VStr "Metric"; VStr f] :: rows).
Proof.
  intros Hf Ht Hcomma Hr Hcsv Hcreate Htext.
  pose proof (split_single comma f Hcomma) as Hs.
  destruct (main_selection list_of_set a [data]) as [selected Hsel]; [done|..].
  { intros Hd first [= <-]. by apply Htext. }
  destruct (main_writes float_of_str list_of_set a w f [data] selected)
    as (w' & Hmain & Hout); try done.
  { rewrite Hs. by repeat constructor. }
  exists w', ((λ m, rowlines m [data]) <$> selected).
  unfold script. rewrite Hmain. rewrite Hs in Hout. split_and!; [done|..].
  - by rewrite Hout, lookup_insert_eq.
  - constructor; [done|]. apply (rows_width [data]).
Qed.

(** C10. In Header-CSV mode, for a readable file every data row of which
    has a [metrics] cell and a numeric [avg] cell, [csv2json] returns a
    mapping in which the key of a row holds the number [float] makes of the
    [avg] cell of the last row with that [metrics] value. *)
Theorem csv_last_row_wins filename w file lines :
  disk w !! filename = Some file →
  access_R_OK file = true →
  csv_reader file = Some lines →
  (∀ row, row ∈ DictReader lines →
     ∃ key avg x,
       getitem row "metrics" = Ok key ∧ getitem row "avg" = Ok (Some avg)
       ∧ float_of_str avg = Some x) →
  ∃ data,
    csv2json float_of_str filename w = (Ok data, w)
    ∧ ∀ i row key avg x,
        DictReader lines !! i = Some row →
        getitem row "metrics" = Ok key →
        getitem row "avg" = Ok (Some avg) →
        float_of_str avg = Some x →
        (∀ j row', i < j → DictReader lines !! j = Some row' →
                   getitem row' "metrics" ≠ Ok key) →
        Dict.get (of_cell key) data = Some (VNum x).
Proof.
  intros Hfile Hacc Hlines Hrows.
  destruct (csv2json_rows_ok float_of_str (DictReader lines)) with (data := @nil (@value num * @value num))
    as (kvs & Hall & Hloop).
  { intros row Hrow. destruct (Hrows row Hrow) as (key & avg & x & ? & ? & ?).
    exists (of_cell key, VNum x). by exists key, avg, x. }
  eexists. split.
  - unfold csv2json, try_except, mbind, M_bind, os_access, open_csv, lift.
    rewrite Hfile. simpl. rewrite Hacc. simpl.
    rewrite Hfile, Hlines. simpl. by rewrite Hloop.
  - intros i row key avg x Hi Hkey Havg Hx Hlast.
    destruct (Forall2_lookup_l _ _ _ _ _ Hall Hi) as (kv & Hkv & Hassign).
    destruct Hassign as (key' & avg' & x' & Hkey' & Havg' & Hx' & ->).
    assert (key' = key) as -> by congruence.
    assert (avg' = avg) as -> by congruence.
    assert (x' = x) as -> by congruence.
    apply (get_assignments kvs i); [done|].
    intros j kv Hij Hj.
    destruct (Forall2_lookup_r _ _ _ _ _ Hall Hj) as (row' & Hrow' & Hassign).
    destruct Hassign as (key2 & ? & ? & Hkey2 & _ & _ & ->). simpl.
    intros Heq. apply (Hlast j row' Hij Hrow'). rewrite Hkey2. f_equal.
    by destruct key2, key; simplify_eq.
Qed.

End Formatter.

(** * The end-to-end scenario and other runs *)

(** C7 (the script departs from it). A Header-CSV file whose header has
    no [metrics] column and which has a data row stops the run, and nothing
    is written; but the script ends with exit status 0, not a non-zero one,
    and prints no diagnostic: the only line printed is the list of files. *)
Theorem missing_column_exit_status :
  let r := Demo.script (Args (Some "A") [] "out.csv" true)
             Demo.no_metrics_column in
  exit_status r.1 = 0%Z
  ∧ stderr r.1 = None
  ∧ stdout r.2 = [[PStr "comparing Files: "; PList ["A"]]]
  ∧ outputs r.2 = ∅.
Proof. vm_compute. done. Qed.

(** The other fatal conditions end with status 1 and a message: no
    [--files], a path that does not exist, a workbook without the sheet, an
    [avg] cell that is no number, a destination that is no CSV file. *)
Example exit_missing_flag :
  (Demo.script (Args None [] "out.csv" true) Demo.scenario).1
  = Outcome 1 (Some (Traceback (SystemError "-f or --files is a required flag"))).
Proof. vm_compute. done. Qed.

Example exit_not_accessible :
  (Demo.script Demo.unreadable_args Demo.scenario).1
  = Outcome 1 (Some (Message "C not accessible")).
Proof. vm_compute. done. Qed.

Example exit_no_sheet :
  let r := Demo.script (Args (Some "W") [] "out.csv" false)
             Demo.other_failures in
  exit_status r.1 = 1%Z
  ∧ stdout r.2 = [ [PStr "comparing Files: "; PList ["W"]];
                   [PStr "No sheet named <'system view'>"] ].
Proof. vm_compute. done. Qed.

Example exit_avg_not_numeric :
  (Demo.script (Args (Some "N") [] "out.csv" true) Demo.other_failures).1
  = Outcome 1 (Some (Traceback ValueError)).
Proof. vm_compute. done. Qed.

Example exit_invalid_extension :
  (Demo.script Demo.txt_args Demo.scenario).1
  = Outcome 1 (Some (Traceback (SystemError "result.txt isn't a csv format!"))).
Proof. vm_compute. done. Qed.

(** The header is looked at when a data row is read: a file with such a
    header and no data row is read as an empty dataset, and the table is
    written. *)
Example header_only_not_checked :
  let r := Demo.script (Args (Some "A") ["metric_CPI"] "out.csv" true)
             Demo.header_only in
  r.1 = Outcome 0 None
  ∧ outputs r.2 !! "out.csv"
    = Some [ [VStr "Metric"; VStr "A"]; [VStr "metric_CPI"; VStr "NA"] ].
Proof. vm_compute. done. Qed.

(** The end-to-end scenario of the specification, with one more name that
    no file has. *)
Example end_to_end :
  let r := Demo.script Demo.explicit_args Demo.scenario in
  r.1 = Outcome 0 None
  ∧ outputs r.2 !! "out.csv"
    = Some [ [VStr "Metric"; VStr "A"; VStr "B"];
             [VStr "metric_CPI"; VNum (15%N, 1); VNum (2%N, O)];
             [VStr "metric_TMA_Frontend"; VStr "NA"; VNum (3%N, 1)];
             [VStr "metric_none"; VStr "NA"; VStr "NA"] ].
Proof. vm_compute. done. Qed.

Ltac compute_split :=
  match goal with
  | |- context [Str.split ?c ?s] =>
      let l := eval vm_compute in (Str.split c s) in
      change (Str.split c s) with l
  end.

Ltac all_read :=
  compute_split;
  repeat (apply List.Forall2_cons; [vm_compute; reflexivity|]);
  apply List.Forall2_nil.

Lemma table_shape_witness :
  ∃ w' rows,
    Demo.main Demo.predefined_args Demo.scenario = (Ok (), w')
    ∧ outputs w' !! "out.csv"
      = Some ([VStr "Metric"; VStr "B"; VStr "A"] :: rows)
    ∧ length rows = 2
    ∧ Forall (λ row, length row = 3) rows.
Proof.
  destruct (table_shape Demo.float_of_str Demo.list_of_set
              Demo.predefined_args Demo.scenario "B,A"
              [Demo.dataB; Demo.dataA])
    as (w' & selected & rows & Hmain & Hout & Hsel & _ & Hlen & _ & Hwidth).
  - reflexivity.
  - reflexivity.
  - all_read.
  - reflexivity.
  - reflexivity.
  - intros _ first [= <-].
    exists ["metric_CPI"; "metric_TMA_Frontend"]. reflexivity.
  - exists w', rows. split; [exact Hmain|]. split; [exact Hout|].
    vm_compute in Hsel. injection Hsel as <-.
    split; [exact Hlen|]. by apply Forall_cons in Hwidth as [_ ?].
Defined.

Lemma predefined_selection_witness :
  select_metrics [] [Demo.dataC; Demo.dataA]
  = Ok [VStr "metric_TMA_Frontend"; VStr "metric_CPI"]
  ∧ select_metrics [] [Demo.dataC; Demo.dataB]
    = Ok [VStr "metric_TMA_Frontend"; VStr "metric_CPI"].
Proof.
  destruct (predefined_selection Demo.dataC [Demo.dataA]
              ["metric_branch mispredict ratio"; "metric_TMA_Frontend";
               "metric_CPI"]
              [VStr "Metric"; VStr "C"; VStr "A"] "out.csv" Demo.scenario)
    as (Hsel & Hany & _).
  - reflexivity.
  - split; [exact Hsel|]. apply (Hany Demo.dataC [Demo.dataB]). reflexivity.
Defined.

Lemma union_selection_witness :
  ∃ w' (names : list (@value Demo.decimal)),
    compare_metrics_all Demo.list_of_set [Demo.dataA; Demo.dataB]
      [VStr "Metric"; VStr "A"; VStr "B"] "out.csv" Demo.scenario
    = (Ok (), w')
    ∧ NoDup names
    ∧ VStr "metric_TMA_Frontend" ∈ names.
Proof.
  destruct (union_selection Demo.list_of_set [Demo.dataA; Demo.dataB]
              [VStr "Metric"; VStr "A"; VStr "B"] "out.csv" Demo.scenario)
    as (w' & names & rows & Hrun & _ & _ & _ & Hnodup & Hin).
  - intros l. split.
    + apply NoDup_remove_dups.
    + intros x. apply elem_of_remove_dups.
  - reflexivity.
  - reflexivity.
  - exists w', names. split; [exact Hrun|]. split; [exact Hnodup|].
    apply Hin. exists Demo.dataB. split.
    + apply list_elem_of_further, list_elem_of_here.
    + apply list_elem_of_further, list_elem_of_here.
Defined.

Lemma explicit_selection_witness :
  ∃ w' rows,
    Demo.main Demo.explicit_args Demo.scenario = (Ok (), w')
    ∧ outputs w' !! "out.csv"
      = Some ([VStr "Metric"; VStr "A"; VStr "B"] :: rows)
    ∧ head <$> rows
      = [ Some (VStr "metric_CPI"); Some (VStr "metric_TMA_Frontend");
          Some (VStr "metric_none") ]
    ∧ rowlines (VStr "metric_none") [Demo.dataA; Demo.dataB]
      = [VStr "metric_none"; VStr "NA"; VStr "NA"].
Proof.
  destruct (explicit_selection Demo.float_of_str Demo.list_of_set
              Demo.explicit_args Demo.scenario "A,B"
              [Demo.dataA; Demo.dataB])
    as (w' & rows & Hmain & Hout & _ & Hheads & Hna).
  - reflexivity.
  - reflexivity.
  - all_read.
  - reflexivity.
  - reflexivity.
  - discriminate.
  - discriminate.
  - exists w', rows. split; [exact Hmain|]. split; [exact Hout|].
    split; [exact Hheads|]. reflexivity.
Defined.

Lemma cell_policy_witness :
  ∃ w' rows row,
    compare_metrics [VStr "metric_TMA_Frontend"] [Demo.dataA; Demo.dataB]
      [VStr "Metric"; VStr "A"; VStr "B"] "out.csv" Demo.scenario
    = (Ok (), w')
    ∧ outputs w' !! "out.csv"
      = Some ([VStr "Metric"; VStr "A"; VStr "B"] :: rows)
    ∧ length rows = 1
    ∧ rows !! 0 = Some row
    ∧ row !! 0 = Some (VStr "metric_TMA_Frontend")
    ∧ row !! 1 = Some (VStr "NA")
    ∧ row !! 2 = Some (VNum (3%N, 1)).
Proof.
  destruct (cell_policy Demo.list_of_set [VStr "metric_TMA_Frontend"]
              [Demo.dataA; Demo.dataB] [VStr "Metric"; VStr "A"; VStr "B"]
              "out.csv" Demo.scenario) as [Hcompare _].
  - reflexivity.
  - reflexivity.
  - destruct (Hcompare [VStr "metric_TMA_Frontend"] eq_refl)
      as (w' & rows & Hrun & Hout & Hlen & Hcells).
    destruct (Hcells 0 (VStr "metric_TMA_Frontend") eq_refl)
      as (row & Hrow & Hname & Hcell).
    exists w', rows, row.
    split; [exact Hrun|]. split; [exact Hout|]. split; [exact Hlen|].
    split; [exact Hrow|]. split; [exact Hname|]. split.
    + apply (Hcell 0 Demo.dataA eq_refl). intros Hin.
      repeat (apply elem_of_cons in Hin as [Heq|Hin]; [discriminate Heq|]).
      by apply elem_of_nil in Hin.
    + destruct (proj1 (Hcell 1 Demo.dataB eq_refl)) as (v & Hv & Hcell2).
      * apply list_elem_of_further, list_elem_of_here.
      * vm_compute in Hv. injection Hv as <-. exact Hcell2.
Defined.

Lemma invalid_extension_no_write_witness :
  ∃ w',
    compare_metrics_all Demo.list_of_set [Demo.dataA; Demo.dataB]
      [VStr "Metric"; VStr "A"; VStr "B"] "result.txt" Demo.scenario
    = (Raise (SystemError "result.txt isn't a csv format!"), w')
    ∧ outputs w' = outputs Demo.scenario.
Proof.
  destruct (invalid_extension_no_write Demo.list_of_set
              [VStr "metric_CPI"] [Demo.dataA; Demo.dataB]
              [VStr "Metric"; VStr "A"; VStr "B"] "result.txt" Demo.scenario)
    as [_ Hall].
  - reflexivity.
  - exact Hall.
Defined.

Lemma reader_failure_aborts_witness :
  ∃ e w',
    Demo.main Demo.unreadable_args Demo.scenario = (Raise e, w')
    ∧ outputs w' = outputs Demo.scenario.
Proof.
  destruct (reader_failure_aborts Demo.float_of_str Demo.list_of_set
              Demo.unreadable_args Demo.scenario "A,C" "C")
    as (e & w' & Hmain & _ & Hout).
  - reflexivity.
  - reflexivity.
  - compute_split. apply list_elem_of_further, list_elem_of_here.
  - left. reflexivity.
  - exists e, w'. split; [exact Hmain | exact Hout].
Defined.

Lemma single_file_two_columns_witness :
  ∃ w' rows,
    Demo.script Demo.single_args Demo.scenario = (Outcome 0 None, w')
    ∧ outputs w' !! "out.csv" = Some ([VStr "Metric"; VStr "B"] :: rows)
    ∧ Forall (λ row, length row = 2) ([VStr "Metric"; VStr "B"] :: rows).
Proof.
  apply (single_file_two_columns Demo.float_of_str Demo.list_of_set
           Demo.single_args Demo.scenario "B" Demo.dataB).
  - reflexivity.
  - reflexivity.
  - reflexivity.
  - vm_compute. reflexivity.
  - reflexivity.
  - reflexivity.
  - discriminate.
Defined.

Lemma csv_last_row_wins_witness :
  ∃ data,
    csv2json Demo.float_of_str "D" Demo.with_duplicates
    = (Ok data, Demo.with_duplicates)
    ∧ Dict.get (VStr "metric_CPI") data = Some (VNum (2%N, O)).
Proof.
  destruct (csv_last_row_wins Demo.float_of_str "D" Demo.with_duplicates
              Demo.duplicates
              [ ["metrics"; "avg"]; ["metric_CPI"; "1.5"];
                ["metric_TMA_Frontend"; "0.3"]; ["metric_CPI"; "2.0"] ])
    as (data & Hrun & Hlast).
  - reflexivity.
  - reflexivity.
  - reflexivity.
  - intros row Hrow.
    repeat (apply elem_of_cons in Hrow as [->|Hrow]);
      [..|by apply elem_of_nil in Hrow];
      eexists _, _, _;
      (split; [vm_compute; reflexivity|]);
      (split; [vm_compute; reflexivity|]); vm_compute; reflexivity.
  - exists data. split; [exact Hrun|].
    apply (Hlast 2 (DictReader_row ["metrics"; "avg"] ["metric_CPI"; "2.0"])
             (Some "metric_CPI") "2.0" (2%N, O)).
    + reflexivity.
    + reflexivity.
    + reflexivity.
    + reflexivity.
    + intros j row' Hj Hrow'. destruct j as [|[|[|j]]]; try lia.
      discriminate Hrow'.
Defined.


(** * Further properties of the readers *)

Section DictOrder.
Context {K V : Type} `{!EqDecision K}.
Implicit Types (d : Dict.t K V) (k : K) (v : V).

(** Assigning to a key leaves the keys as they are if the key is there,
    and puts the key last if it is new. *)
Lemma keys_set_order k v d :
  Dict.keys (Dict.set k v d)
  = if decide (k ∈ Dict.keys d) then Dict.keys d else Dict.keys d ++ [k].
Proof.
  unfold Dict.keys. induction d as [|[k0 v0] d IH].
  - destruct (decide (k ∈ _)) as [Hin|_]; [|reflexivity].
    by apply elem_of_nil in Hin.
  - cbn [Dict.set]. rewrite fmap_cons. cbn [fst].
    destruct (decide (k0 = k)) as [->|Hne].
    + destruct (decide (k ∈ k :: d.*1)) as [_|Hnin]; [reflexivity|].
      destruct Hnin. by left.
    + rewrite fmap_cons, IH. cbn [fst].
      destruct (decide (k ∈ d.*1)) as [Hin|Hnin],
               (decide (k ∈ k0 :: d.*1)) as [Hin'|Hnin']; try reflexivity.
      * destruct Hnin'. by right.
      * apply elem_of_cons in Hin' as [?|?]; by subst.
Qed.

Lemma NoDup_keys_set k v d :
  NoDup (Dict.keys d) → NoDup (Dict.keys (Dict.set k v d)).
Proof.
  intros Hd. rewrite keys_set_order. destruct (decide _) as [|Hnin]; [done|].
  apply NoDup_app. split_and!; [done| |apply NoDup_singleton].
  intros x Hx Hk. apply list_elem_of_singleton in Hk. by subst.
Qed.

Lemma NoDup_keys_assignments (kvs : list (K * V)) d :
  NoDup (Dict.keys d) →
  NoDup (Dict.keys (foldl (λ d kv, Dict.set kv.1 kv.2 d) d kvs)).
Proof.
  revert d. induction kvs as [|kv kvs IH]; intros d Hd; [done|].
  simpl. by apply IH, NoDup_keys_set.
Qed.

Lemma keys_assignments (kvs : list (K * V)) d k :
  k ∈ Dict.keys (foldl (λ d kv, Dict.set kv.1 kv.2 d) d kvs)
  ↔ k ∈ kvs.*1 ∨ k ∈ Dict.keys d.
Proof.
  revert d. induction kvs as [|[k0 v0] kvs IH]; intros d; simpl.
  - rewrite elem_of_nil. tauto.
  - rewrite IH, keys_set, elem_of_cons. tauto.
Qed.

(** The keys after a run of assignments to an empty dictionary: the keys
    assigned, each at the place of its first assignment. *)
Lemma keys_first_assignment (kvs : list (K * V)) :
  Dict.keys (foldl (λ d kv, Dict.set kv.1 kv.2 d) [] kvs)
  = reverse (remove_dups (reverse kvs.*1)).
Proof.
  induction kvs as [|[k v] kvs IH] using rev_ind; [done|].
  rewrite foldl_app, fmap_app, reverse_app. cbn [foldl fmap list_fmap fst snd reverse app].
  rewrite keys_set_order, IH.
  change (reverse [k] ++ reverse kvs.*1) with (k :: reverse kvs.*1).
  cbn [remove_dups].
  destruct (decide (k ∈ reverse (remove_dups (reverse kvs.*1)))) as [Hin|Hnin],
           (decide_rel elem_of k (reverse kvs.*1)) as [Hin'|Hnin']; try done.
  - destruct Hnin'. by rewrite elem_of_reverse, elem_of_remove_dups in Hin.
  - destruct Hnin. by rewrite elem_of_reverse, elem_of_remove_dups.
  - by rewrite reverse_cons.
Qed.

End DictOrder.

Section Readers.
Context {num : Type} `{!EqDecision num}.
Variable float_of_str : string → option num.
Variable list_of_set : list (@value num) → list (@value num).
Implicit Types (w : @world num) (metric : @value num) (data : dict num)
  (datalist : list (dict num)) (fields : list (@value num)) (out : string).

(** ** The loop of [excel2json] *)

Lemma excel2json_rows_ok (rows : list (list (@value num))) :
  (∀ row, row ∈ rows → (2 ≤ length row)%nat) →
  ∀ data, ∃ kvs,
    Forall2 (λ row kv, row !! 0 = Some kv.1 ∧ row !! 1 = Some kv.2) rows kvs
    ∧ excel2json_rows rows data
      = Ok (foldl (λ d kv, Dict.set kv.1 kv.2 d) data kvs).
Proof.
  induction rows as [|row rows IH]; intros Hrows data.
  - exists []. by split.
  - assert ((2 ≤ length row)%nat) as Hlen by (apply Hrows; by left).
    destruct row as [|k [|v row]]; simpl in Hlen; try lia.
    destruct (IH (λ r Hr, Hrows r (list_elem_of_further _ _ _ Hr))
                 (Dict.set k v data)) as (kvs & Hall & Hloop).
    exists ((k, v) :: kvs). split; [by constructor|]. done.
Qed.

Lemma excel2json_sheet filename sheet w file wb sh :
  disk w !! filename = Some file →
  access_R_OK file = true →
  open_workbook file = inr wb →
  Dict.get sheet wb = Some sh →
  excel2json filename sheet w
  = (excel2json_rows (drop 1 sh) [], w)
  ∨ ∃ msg, excel2json_rows (drop 1 sh) [] = Raise (XLRDError msg).
Proof.
  intros Hfile Hacc Hwb Hsh.
  unfold excel2json, try_except, mbind, M_bind, os_access, xlrd_open_workbook,
    lift, sheet_by_name.
  rewrite Hfile. simpl. rewrite Hacc. simpl. rewrite Hfile. simpl.
  rewrite Hwb, Hsh.
  destruct (excel2json_rows (drop 1 sh) []) as [data|[]]; simpl; eauto.
Qed.

(** X1. For a readable workbook that has the sheet, with at least two
    cells in every row after the first, [excel2json] returns and prints
    nothing; the keys of the mapping are the first cells of the rows after
    row 0, row 0 being skipped; and a key holds the second cell of the last
    row that has it as first cell. *)
Theorem excel_last_row_wins filename sheet w file wb sh :
  disk w !! filename = Some file →
  access_R_OK file = true →
  open_workbook file = inr wb →
  Dict.get sheet wb = Some sh →
  (∀ row, row ∈ drop 1 sh → (2 ≤ length row)%nat) →
  ∃ data,
    excel2json filename sheet w = (Ok data, w)
    ∧ (∀ k, k ∈ Dict.keys data
            ↔ ∃ row, row ∈ drop 1 sh ∧ row !! 0 = Some k)
    ∧ ∀ i row k v,
        drop 1 sh !! i = Some row →
        row !! 0 = Some k →
        row !! 1 = Some v →
        (∀ j row', i < j → drop 1 sh !! j = Some row' → row' !! 0 ≠ Some k) →
        Dict.get k data = Some v.
Proof.
  intros Hfile Hacc Hwb Hsh Hrows.
  destruct (excel2json_rows_ok (drop 1 sh) Hrows [])
    as (kvs & Hall & Hloop).
  eexists. split_and!.
  - destruct (excel2json_sheet filename sheet w file wb sh Hfile Hacc Hwb Hsh)
      as [->|[msg Hmsg]]; [by rewrite Hloop | by rewrite Hloop in Hmsg].
  - intros k. rewrite keys_assignments.
    change (Dict.keys (K:=@value num) (V:=@value num) []) with (@nil (@value num)).
    rewrite elem_of_nil, (right_id _ _). split.
    + intros Hk. apply list_elem_of_fmap in Hk as ([k' v] & -> & Hkv).
      apply list_elem_of_lookup in Hkv as [i Hi].
      destruct (Forall2_lookup_r _ _ _ _ _ Hall Hi) as (row & Hrow & H0 & _).
      exists row. split; [by eapply list_elem_of_lookup_2|done].
    + intros (row & Hrow & H0).
      apply list_elem_of_lookup in Hrow as [i Hi].
      destruct (Forall2_lookup_l _ _ _ _ _ Hall Hi) as ([k' v] & Hkv & H0' & _).
      simpl in *. assert (k' = k) as -> by congruence.
      apply list_elem_of_fmap. exists (k, v). split; [done|].
      by eapply list_elem_of_lookup_2.
  - intros i row k v Hi H0 H1 Hlast.
    destruct (Forall2_lookup_l _ _ _ _ _ Hall Hi) as ([k' v'] & Hkv & H0' & H1').
    simpl in *. assert (k' = k) as -> by congruence.
    assert (v' = v) as -> by congruence.
    apply (get_assignments kvs i); [done|].
    intros j kv Hij Hj.
    destruct (Forall2_lookup_r _ _ _ _ _ Hall Hj) as (row' & Hrow' & H0'' & _).
    intros Heq. apply (Hlast j row' Hij Hrow'). by rewrite H0'', Heq.
Qed.

(** ** What a reader returns and what it raises *)

Lemma csv2json_rows_raise (rows : list (Dict.t string (option string)))
    (data : dict num) e :
  csv2json_rows float_of_str rows data = Raise e →
  (∃ key, e = KeyError key) ∨ e = TypeError ∨ e = ValueError.
Proof.
  revert data. induction rows as [|row rows IH]; intros data; [done|].
  simpl. unfold getitem, float.
  destruct (Dict.get "metrics" row) as [key|]; simpl; [|intros [= <-]; eauto].
  destruct (Dict.get "avg" row) as [[avg|]|]; simpl;
    [|intros [= <-]; eauto..].
  destruct (float_of_str avg); simpl; [apply IH | intros [= <-]; eauto].
Qed.

Lemma excel2json_rows_raise (rows : list (list (@value num)))
    (data : dict num) e :
  excel2json_rows rows data = Raise e → e = IndexError.
Proof.
  revert data. induction rows as [|row rows IH]; intros data; [done|].
  destruct row as [|k [|v row]]; simpl; [by intros [= <-]..|apply IH].
Qed.

Ltac reader_steps Hfile :=
  unfold read, csv2json, excel2json, try_except, mbind, M_bind, os_access,
    open_csv, xlrd_open_workbook, lift, raise, print, sheet_by_name;
  simpl; rewrite ?Hfile; simpl; rewrite ?Hfile; simpl.

(** The ways a reader ends. It returns, having printed nothing, with the
    mapping its loop builds; or the path is not accessible; or, for
    [csv2json], the text does not decode, or the loop raises (a [KeyError]
    leaving as [SystemExit()]); or, for [excel2json], [xlrd] raises (the
    message is printed and [SystemExit(1)] leaves), or a row is too
    short. *)
Lemma read_cases p filename w :
  let r := read float_of_str p filename w in
  (default false (access_R_OK <$> disk w !! filename) = false
   ∧ r = (Raise (SystemExit (ExitStr (filename +:+ " not accessible"))), w))
  ∨ (∃ file, disk w !! filename = Some file ∧ access_R_OK file = true
     ∧ if p then
         match csv_reader file with
         | None => r = (Raise UnicodeDecodeError, w)
         | Some lines =>
             match csv2json_rows float_of_str (DictReader lines) [] with
             | Ok data => r = (Ok data, w)
             | Raise (KeyError _) => r = (Raise (SystemExit ExitNone), w)
             | Raise e => r = (Raise e, w)
             end
         end
       else
         match open_workbook file with
         | inl msg =>
             r = (Raise (SystemExit (ExitInt 1)),
                  set_stdout (stdout w ++ [[PStr msg]]) w)
         | inr wb =>
             match Dict.get "system view" wb with
             | None =>
                 r = (Raise (SystemExit (ExitInt 1)),
                      set_stdout
                        (stdout w ++ [[PStr "No sheet named <'system view'>"]])
                        w)
             | Some sh =>
                 match excel2json_rows (drop 1 sh) [] with
                 | Ok data => r = (Ok data, w)
                 | Raise _ => r = (Raise IndexError, w)
                 end
             end
         end).
Proof.
  cbn zeta.
  destruct (disk w !! filename) as [[acc wb lines]|] eqn:Hfile; simpl.
  2:{ left. split; [done|]. destruct p; reader_steps Hfile; reflexivity. }
  destruct acc.
  2:{ left. split; [done|]. destruct p; reader_steps Hfile; reflexivity. }
  right. eexists. split_and!; [done..|]. simpl.
  destruct p.
  - reader_steps Hfile. destruct lines as [lines|]; simpl; [|done].
    destruct (csv2json_rows float_of_str (DictReader lines) []) as [|[]];
      done.
  - reader_steps Hfile. destruct wb as [msg|wb]; simpl; [done|].
    destruct (Dict.get "system view" wb) as [sh|]; simpl; [|done].
    destruct (excel2json_rows (drop 1 sh) []) as [data|e] eqn:Hloop;
      simpl; [done|].
    apply excel2json_rows_raise in Hloop as ->. done.
Qed.

Lemma csv2json_rows_inv (rows : list (Dict.t string (option string)))
    (data data' : dict num) :
  csv2json_rows float_of_str rows data = Ok data' →
  ∃ kvs, Forall2 (assigns float_of_str) rows kvs
         ∧ data' = foldl (λ d kv, Dict.set kv.1 kv.2 d) data kvs.
Proof.
  revert data. induction rows as [|row rows IH]; intros data.
  - intros [= <-]. exists []. by split.
  - simpl. unfold float.
    destruct (getitem row "metrics") as [key|] eqn:Hkey; simpl; [|done].
    destruct (getitem row "avg") as [[avg|]|] eqn:Havg; simpl; [|done..].
    destruct (float_of_str avg) as [x|] eqn:Hx; simpl; [|done].
    intros Hloop. destruct (IH _ Hloop) as (kvs & Hall & ->).
    exists ((of_cell key, VNum x) :: kvs). split; [|done].
    constructor; [|done]. by exists key, avg, x.
Qed.

Lemma excel2json_rows_inv (rows : list (list (@value num)))
    (data data' : dict num) :
  excel2json_rows rows data = Ok data' →
  ∃ kvs,
    Forall2 (λ row kv, row !! 0 = Some kv.1 ∧ row !! 1 = Some kv.2) rows kvs
    ∧ data' = foldl (λ d kv, Dict.set kv.1 kv.2 d) data kvs.
Proof.
  revert data. induction rows as [|row rows IH]; intros data.
  - intros [= <-]. exists []. by split.
  - destruct row as [|k [|v row]]; simpl; [done..|].
    intros Hloop. destruct (IH _ Hloop) as (kvs & Hall & ->).
    exists ((k, v) :: kvs). split; [|done]. by constructor.
Qed.

(** The mapping a reader returns, as a run of assignments to an empty
    dictionary. *)
Lemma read_assignments p filename w data w' :
  read float_of_str p filename w = (Ok data, w') →
  w' = w
  ∧ ∃ kvs : list (@value num * @value num),
      data = foldl (λ d kv, Dict.set kv.1 kv.2 d) [] kvs.
Proof.
  intros Hr. destruct (read_cases p filename w) as [[_ Hna]|Hfile].
  - cbn zeta in Hna. congruence.
  - destruct Hfile as (file & _ & _ & Hcase). cbn zeta in Hcase.
    rewrite Hr in Hcase. destruct p.
    + destruct (csv_reader file) as [lines|]; [|done].
      destruct (csv2json_rows _ _ _) as [data0|e] eqn:Hloop.
      * injection Hcase as -> ->. split; [done|].
        apply csv2json_rows_inv in Hloop as (kvs & _ & ->). eauto.
      * by destruct e.
    + destruct (open_workbook file) as [msg|wb]; [done|].
      destruct (Dict.get "system view" wb) as [sh|]; [|done].
      destruct (excel2json_rows _ _) as [data0|e] eqn:Hloop; [|done].
      injection Hcase as -> ->. split; [done|].
      apply excel2json_rows_inv in Hloop as (kvs & _ & ->). eauto.
Qed.

(** X2. Whatever file it reads, the mapping a reader returns has no key
    twice, and the reader has changed nothing: no line printed, no file
    written. *)
Theorem reader_keys_unique p filename w data w' :
  read float_of_str p filename w = (Ok data, w') →
  w' = w ∧ NoDup (Dict.keys data).
Proof.
  intros Hr. apply read_assignments in Hr as (-> & kvs & ->).
  split; [done|]. apply NoDup_keys_assignments. constructor.
Qed.

(** X3. A reader never writes a file and never changes what is on disk;
    it prints only in [excel2json], one line, when [xlrd] raises, and then
    it leaves with [SystemExit(1)]. *)
Theorem readers_leave_files_alone p filename w :
  let r := read float_of_str p filename w in
  disk r.2 = disk w
  ∧ can_create r.2 = can_create w
  ∧ outputs r.2 = outputs w
  ∧ (r.2 = w
     ∨ (p = false ∧ r.1 = Raise (SystemExit (ExitInt 1))
        ∧ ∃ msg, stdout r.2 = stdout w ++ [[PStr msg]])).
Proof.
  cbn zeta. destruct (read_cases p filename w) as [[_ Hna]|Hfile].
  - cbn zeta in Hna. rewrite Hna. simpl. eauto.
  - destruct Hfile as (file & _ & _ & Hcase). cbn zeta in Hcase.
    destruct p.
    + destruct (csv_reader file) as [lines|];
        [destruct (csv2json_rows _ _ _) as [|[]]|];
        rewrite Hcase; simpl; eauto.
    + destruct (open_workbook file) as [msg|wb];
        [|destruct (Dict.get "system view" wb) as [sh|];
          [destruct (excel2json_rows _ _)|]];
        rewrite Hcase; simpl; eauto 10.
Qed.

(** X4. The keys of the mapping [csv2json] returns are the [metrics]
    cells of the data rows, each once, at the place of its first row: the
    order [dict.keys()] has, which is the order of the rows in predefined
    mode. *)
Theorem csv_key_order filename w data w' file lines :
  csv2json float_of_str filename w = (Ok data, w') →
  disk w !! filename = Some file →
  csv_reader file = Some lines →
  ∃ names,
    Forall2 (λ row key, getitem row "metrics" = Ok key) (DictReader lines)
      names
    ∧ Dict.keys data = reverse (remove_dups (reverse (of_cell <$> names))).
Proof.
  intros Hr Hfile Hlines.
  destruct (read_cases true filename w) as [[_ Hna]|Hcase].
  { cbn zeta in Hna. unfold read in Hna. congruence. }
  destruct Hcase as (file' & Hfile' & _ & Hcase). cbn zeta in Hcase.
  assert (file' = file) as -> by congruence.
  unfold read in Hcase. rewrite Hlines, Hr in Hcase.
  destruct (csv2json_rows _ _ _) as [data0|e] eqn:Hloop.
  2:{ by destruct e. }
  injection Hcase as -> ->.
  apply csv2json_rows_inv in Hloop as (kvs & Hall & ->).
  exists ((λ row, match getitem row "metrics" with
                  | Ok key => key
                  | Raise _ => None
                  end) <$> DictReader lines).
  split.
  - apply Forall2_fmap_r, Forall_Forall2_diag, Forall_forall.
    intros row Hrow. apply list_elem_of_lookup in Hrow as [i Hi].
    destruct (Forall2_lookup_l _ _ _ _ _ Hall Hi)
      as (kv & _ & key & avg & x & Hkey & _).
    simpl. by rewrite Hkey.
  - rewrite keys_first_assignment. do 3 f_equal.
    clear -Hall. induction Hall as [|row kv rows kvs Hkv _ IH]; [done|].
    rewrite !fmap_cons, IH. f_equal.
    destruct Hkv as (key & avg & x & Hkey & _ & _ & ->).
    by rewrite Hkey.
Qed.

(** X5. The keys of the mapping [excel2json] returns are the first cells
    of the rows after row 0, each once, at the place of its first row. *)
Theorem excel_key_order filename w data w' file wb sh :
  excel2json filename "system view" w = (Ok data, w') →
  disk w !! filename = Some file →
  open_workbook file = inr wb →
  Dict.get "system view" wb = Some sh →
  ∃ names,
    Forall2 (λ row name, row !! 0 = Some name) (drop 1 sh) names
    ∧ Dict.keys data = reverse (remove_dups (reverse names)).
Proof.
  intros Hr Hfile Hwb Hsh.
  assert (access_R_OK file = true) as Hacc.
  { revert Hr. unfold excel2json, try_except, mbind, M_bind, os_access, raise.
    rewrite Hfile. simpl. by destruct (access_R_OK file). }
  destruct (excel2json_sheet filename "system view" w file wb sh
              Hfile Hacc Hwb Hsh) as [Hrun|[msg Hmsg]].
  2:{ by apply excel2json_rows_raise in Hmsg. }
  rewrite Hr in Hrun. injection Hrun as Hloop ->. symmetry in Hloop.
  apply excel2json_rows_inv in Hloop as (kvs & Hall & ->).
  exists kvs.*1. split.
  - apply Forall2_fmap_r. eapply Forall2_impl; [exact Hall|].
    by intros row kv [? _].
  - apply keys_first_assignment.
Qed.

(** X6. A file [xlrd] cannot open, or a workbook without the sheet
    [system view], makes [excel2json] print the message of [xlrd] and leave
    with [SystemExit(1)]; nothing else changes. *)
Theorem workbook_error_exit filename w file :
  disk w !! filename = Some file →
  access_R_OK file = true →
  match open_workbook file with
  | inl _ => True
  | inr wb => Dict.get "system view" wb = None
  end →
  ∃ msg,
    excel2json filename "system view" w
    = (Raise (SystemExit (ExitInt 1)), set_stdout (stdout w ++ [[PStr msg]]) w)
    ∧ ∀ msg', open_workbook file = inl msg' → msg = msg'.
Proof.
  intros Hfile Hacc Hwb.
  unfold excel2json, try_except, mbind, M_bind, os_access, xlrd_open_workbook,
    lift, sheet_by_name, raise, print.
  rewrite Hfile. simpl. rewrite Hacc. simpl. rewrite Hfile. simpl.
  destruct (open_workbook file) as [msg|wb]; simpl.
  - exists msg. split; [done|]. by intros ? [= ->].
  - rewrite Hwb. simpl. eexists. split; [done|]. done.
Qed.

(** ** Rows the loops stop at *)

Lemma csv2json_rows_app (good rest : list (Dict.t string (option string)))
    (data : dict num) kvs :
  Forall2 (assigns float_of_str) good kvs →
  csv2json_rows float_of_str (good ++ rest) data
  = csv2json_rows float_of_str rest
      (foldl (λ d kv, Dict.set kv.1 kv.2 d) data kvs).
Proof.
  intros Hall. revert data.
  induction Hall as [|row kv good kvs Hkv _ IH]; intros data; [done|].
  destruct Hkv as (key & avg & x & Hkey & Havg & Hx & ->).
  simpl. rewrite Hkey, Havg. simpl. rewrite Hx. simpl. apply IH.
Qed.

Lemma excel2json_rows_app (good rest : list (list (@value num)))
    (data : dict num) kvs :
  Forall2 (λ row kv, row !! 0 = Some kv.1 ∧ row !! 1 = Some kv.2) good kvs →
  excel2json_rows (good ++ rest) data
  = excel2json_rows rest (foldl (λ d kv, Dict.set kv.1 kv.2 d) data kvs).
Proof.
  intros Hall. revert data.
  induction Hall as [|row kv good kvs [H0 H1] _ IH]; intros data; [done|].
  simpl. unfold getindex. rewrite H0, H1. simpl. apply IH.
Qed.

Lemma csv2json_loop filename w file lines :
  disk w !! filename = Some file →
  access_R_OK file = true →
  csv_reader file = Some lines →
  csv2json float_of_str filename w
  = (match csv2json_rows float_of_str (DictReader lines) [] with
     | Raise (KeyError _) => Raise (SystemExit ExitNone)
     | r => r
     end, w).
Proof.
  intros Hfile Hacc Hlines.
  destruct (read_cases true filename w) as [[Hna _]|Hcase].
  { rewrite Hfile in Hna. simpl in Hna. congruence. }
  destruct Hcase as (file' & Hfile' & _ & Hcase). cbn zeta in Hcase.
  assert (file' = file) as -> by congruence. unfold read in Hcase.
  rewrite Hlines in Hcase.
  by destruct (csv2json_rows _ _ _) as [|[]].
Qed.

(** X7. A readable Header-CSV file without a data row (no row at all, or
    nothing but blank rows after the first) is read as the empty mapping,
    whatever its header: the header is not looked at. *)
Theorem csv_no_data_rows filename w file lines :
  disk w !! filename = Some file →
  access_R_OK file = true →
  csv_reader file = Some lines →
  (∀ row, row ∈ drop 1 lines → row = []) →
  csv2json float_of_str filename w = (Ok [], w).
Proof.
  intros Hfile Hacc Hlines Hblank.
  rewrite (csv2json_loop filename w file lines) by done.
  assert (DictReader lines = []) as ->; [|done].
  destruct lines as [|fieldnames rows]; [done|]. simpl in *.
  assert (filter (λ row, row ≠ []) rows = []) as ->; [|done].
  clear -Hblank. induction rows as [|row rows IH]; [done|].
  rewrite filter_cons. destruct (decide (row ≠ [])) as [Hne|_].
  - destruct Hne. apply Hblank. by left.
  - apply IH. intros r Hr. apply Hblank. by right.
Qed.

(** X8. The first data row of a Header-CSV file that has a [metrics] cell
    but whose [avg] cell is missing (a short row) or is no number stops
    [csv2json]: with [TypeError] for the missing cell, with [ValueError]
    for the text [float] rejects; nothing is printed. *)
Theorem csv_bad_avg filename w file lines good bad rest key cell :
  disk w !! filename = Some file →
  access_R_OK file = true →
  csv_reader file = Some lines →
  DictReader lines = good ++ bad :: rest →
  (∀ row, row ∈ good → ∃ kv, assigns float_of_str row kv) →
  getitem bad "metrics" = Ok key →
  getitem bad "avg" = Ok cell →
  match cell with
  | None => True
  | Some avg => float_of_str avg = None
  end →
  csv2json float_of_str filename w
  = (Raise (match cell with None => TypeError | Some _ => ValueError end), w).
Proof.
  intros Hfile Hacc Hlines Hrows Hgood Hkey Havg Hcell.
  rewrite (csv2json_loop filename w file lines) by done.
  destruct (csv2json_rows_ok float_of_str good Hgood [])
    as (kvs & Hall & _).
  rewrite Hrows, (csv2json_rows_app good (bad :: rest) [] kvs Hall).
  simpl. rewrite Hkey, Havg. simpl.
  destruct cell as [avg|]; simpl; [|done]. by rewrite Hcell.
Qed.

(** X9. The first row after row 0 with fewer than two cells stops
    [excel2json] with [IndexError]; it is no [XLRDError], so nothing is
    printed. *)
Theorem excel_short_row filename sheet w file wb sh good short rest :
  disk w !! filename = Some file →
  access_R_OK file = true →
  open_workbook file = inr wb →
  Dict.get sheet wb = Some sh →
  drop 1 sh = good ++ short :: rest →
  (∀ row, row ∈ good → (2 ≤ length row)%nat) →
  length short < 2 →
  excel2json filename sheet w = (Raise IndexError, w).
Proof.
  intros Hfile Hacc Hwb Hsh Hrows Hgood Hshort.
  destruct (excel2json_rows_ok good Hgood []) as (kvs & Hall & _).
  assert (excel2json_rows (drop 1 sh) [] = Raise IndexError) as Hloop.
  { rewrite Hrows, (excel2json_rows_app good (short :: rest) [] kvs Hall).
    destruct short as [|k [|v short]]; simpl in *; [done..|lia]. }
  destruct (excel2json_sheet filename sheet w file wb sh Hfile Hacc Hwb Hsh)
    as [->|[msg Hmsg]]; [by rewrite Hloop | by rewrite Hloop in Hmsg].
Qed.

End Readers.

(** * Further properties of the run *)

Section Runs.
Context {num : Type} `{!EqDecision num}.
Variable float_of_str : string → option num.
Variable list_of_set : list (@value num) → list (@value num).
Implicit Types (w : @world num) (metric : @value num) (data : dict num)
  (datalist : list (dict num)) (fields : list (@value num)) (out : string).

(** The loading loop stops at the first file whose reader raises. *)
Lemma load_stops p (good : list string) bad rest (loaded : list (dict num))
    w e w1 :
  Forall2 (λ filename data, read float_of_str p filename w = (Ok data, w))
    good loaded →
  read float_of_str p bad w = (Raise e, w1) →
  ∀ jsondata fields,
    load float_of_str p (good ++ bad :: rest) jsondata fields w
    = (Raise e, w1).
Proof.
  intros Hgood Hbad.
  induction Hgood as [|filename data good loaded Hr _ IH];
    intros jsondata fields; simpl; unfold mbind, M_bind.
  - by rewrite Hbad.
  - rewrite Hr. apply IH.
Qed.

(** The two ways the loading loop ends. *)
Lemma load_inv p (filenames : list string) jsondata fields w r w' :
  load float_of_str p filenames jsondata fields w = (r, w') →
  match r with
  | Ok (jsondata', fields') =>
      w' = w
      ∧ ∃ loaded,
          Forall2 (λ filename data,
                     read float_of_str p filename w = (Ok data, w))
            filenames loaded
          ∧ jsondata' = jsondata ++ loaded
          ∧ fields' = fields ++ (VStr <$> filenames)
  | Raise e =>
      ∃ good bad rest (loaded : list (dict num)),
        filenames = good ++ bad :: rest
        ∧ Forall2 (λ filename data,
                     read float_of_str p filename w = (Ok data, w))
            good loaded
        ∧ read float_of_str p bad w = (Raise e, w')
  end.
Proof.
  revert jsondata fields.
  induction filenames as [|filename filenames IH]; intros jsondata fields.
  - intros [= <- <-]. split; [done|]. exists [].
    by rewrite !app_nil_r.
  - simpl. unfold mbind, M_bind.
    destruct (read_world float_of_str p filename w) as (_ & _ & _ & Hok).
    destruct (read float_of_str p filename w) as [[data|e] w0] eqn:Hr;
      simpl in Hok.
    + rewrite (Hok data eq_refl) in *. intros Hload.
      specialize (IH _ _ Hload). destruct r as [[jsondata' fields']|e].
      * destruct IH as (-> & loaded & Hall & -> & ->). split; [done|].
        exists (data :: loaded). rewrite <-!app_assoc. split_and!; try done.
        by constructor.
      * destruct IH as (good & bad & rest & loaded & -> & Hall & Hbad).
        exists (filename :: good), bad, rest, (data :: loaded).
        split_and!; try done. by constructor.
    + intros [= <- <-]. exists [], filename, filenames, []. by split_and!.
Qed.

(** When the loading loop stops at a file, [main] ends with the exception
    of that file's reader, in the world that reader leaves. *)
Lemma main_first_failure (a : args) w f good bad rest
    (loaded : list (dict num)) e w' :
  files a = Some f →
  Str.truthy f = true →
  Str.split comma f = good ++ bad :: rest →
  Forall2 (λ filename data,
             read float_of_str (perfspect a) filename w = (Ok data, w))
    good loaded →
  read float_of_str (perfspect a) bad
    (set_stdout (stdout w ++ [[PStr "comparing Files: "; PList (good ++ bad :: rest)]]) w)
  = (Raise e, w') →
  main float_of_str list_of_set a w = (Raise e, w').
Proof.
  intros Hf Ht Hsplit Hgood Hbad.
  unfold main, mbind, M_bind. rewrite Hf, Ht. simpl. rewrite Hsplit.
  erewrite load_stops; [done| |exact Hbad].
  eapply Forall2_impl; [exact Hgood|]. intros filename data Hr.
  eapply read_frame; [|exact Hr]. done.
Qed.

(** X10. The first file whose reader raises decides how the run ends:
    [main] raises the exception of that reader, the script ends with the
    status of that exception, the files named after it play no part, and no
    table is written. *)
Theorem first_failure_decides (a : args) w f good bad rest
    (loaded : list (dict num)) e w1 :
  files a = Some f →
  Str.truthy f = true →
  Str.split comma f = good ++ bad :: rest →
  Forall2 (λ filename data,
             read float_of_str (perfspect a) filename w = (Ok data, w))
    good loaded →
  read float_of_str (perfspect a) bad w = (Raise e, w1) →
  ∃ w',
    main float_of_str list_of_set a w = (Raise e, w')
    ∧ script float_of_str list_of_set a w = (exit_of (Raise e), w')
    ∧ outputs w' = outputs w.
Proof.
  intros Hf Ht Hsplit Hgood Hbad.
  set (w0 := set_stdout
               (stdout w ++ [[PStr "comparing Files: "; PList (good ++ bad :: rest)]]) w).
  pose proof (read_result float_of_str (perfspect a) bad w w0 eq_refl) as Hres.
  rewrite Hbad in Hres. simpl in Hres.
  destruct (read_world float_of_str (perfspect a) bad w0) as (_ & _ & Hout & _).
  destruct (read float_of_str (perfspect a) bad w0) as [r w'] eqn:Hbad0.
  simpl in *. subst r.
  assert (main float_of_str list_of_set a w = (Raise e, w')) as Hmain.
  { by eapply main_first_failure. }
  exists w'. split_and!; [done| |done].
  unfold script. by rewrite Hmain.
Qed.

(** X11. When the files before it are read and a path is not accessible,
    the script prints the list of files, ends with status 1 and the
    message [<path> not accessible], and writes nothing. *)
Theorem first_unreadable_file (a : args) w f good bad rest
    (loaded : list (dict num)) :
  files a = Some f →
  Str.truthy f = true →
  Str.split comma f = good ++ bad :: rest →
  Forall2 (λ filename data,
             read float_of_str (perfspect a) filename w = (Ok data, w))
    good loaded →
  default false (access_R_OK <$> disk w !! bad) = false →
  script float_of_str list_of_set a w
  = (Outcome 1 (Some (Message (bad +:+ " not accessible"))),
     set_stdout
       (stdout w ++ [[PStr "comparing Files: "; PList (Str.split comma f)]]) w).
Proof.
  intros Hf Ht Hsplit Hgood Hacc. unfold script.
  erewrite main_first_failure; [|done..|]; last first.
  { by apply read_not_accessible. }
  by rewrite Hsplit.
Qed.

(** X12. Under [--perfspect], when the files before it are read and a
    file has a header without [metrics] or without [avg] and a data row
    that is not blank, the script prints the list of files and ends with
    status 0 and no diagnostic; nothing is written. *)
Theorem missing_column_silent_exit (a : args) w f good bad rest
    (loaded : list (dict num)) file fieldnames rows row :
  files a = Some f →
  Str.truthy f = true →
  perfspect a = true →
  Str.split comma f = good ++ bad :: rest →
  Forall2 (λ filename data,
             read float_of_str (perfspect a) filename w = (Ok data, w))
    good loaded →
  disk w !! bad = Some file →
  access_R_OK file = true →
  csv_reader file = Some (fieldnames :: rows) →
  row ∈ rows → row ≠ [] →
  "metrics" ∉ fieldnames ∨ "avg" ∉ fieldnames →
  script float_of_str list_of_set a w
  = (Outcome 0 None,
     set_stdout
       (stdout w ++ [[PStr "comparing Files: "; PList (Str.split comma f)]]) w).
Proof.
  intros Hf Ht Hp Hsplit Hgood Hfile Hacc Hlines Hrow Hne Hmissing.
  unfold script.
  erewrite main_first_failure; [|done..|]; last first.
  { rewrite Hp. unfold read.
    eapply csv2json_missing_column; [exact Hfile|done..]. }
  by rewrite Hsplit.
Qed.

(** ** How a run can end *)

Lemma comprehension_raise (l : list (@value num)) e :
  comprehension is_predefined l = Raise e → e = AttributeError.
Proof.
  induction l as [|m l IH]; [done|]. simpl.
  destruct (is_predefined m) as [b|e0] eqn:Hm; simpl.
  - destruct (comprehension is_predefined l) as [ms|e1]; simpl; [done|].
    intros [= <-]. by apply IH.
  - intros [= <-]. destruct m; simpl in Hm; congruence.
Qed.

Lemma select_metrics_raise (metriclist : list (@value num)) datalist e :
  select_metrics metriclist datalist = Raise e →
  metriclist = [] ∧ (e = IndexError ∨ e = AttributeError).
Proof.
  destruct metriclist as [|m ms]; [|done]. simpl. unfold getindex.
  destruct (datalist !! 0) as [first|]; simpl.
  - intros He. apply comprehension_raise in He. eauto.
  - intros [= <-]. eauto.
Qed.

(** An exception of a reader ends the script with status 1, but for the
    [SystemExit()] of [csv2json]. *)
Lemma read_raise_status p filename w e w' :
  read float_of_str p filename w = (Raise e, w') →
  exit_status (exit_of (Raise e)) = 1%Z
  ∨ (p = true ∧ e = SystemExit ExitNone).
Proof.
  intros Hr. destruct (read_cases float_of_str p filename w) as [[_ Hna]|Hcase].
  - cbn zeta in Hna. rewrite Hr in Hna. injection Hna as -> _. by left.
  - destruct Hcase as (file & _ & _ & Hcase). cbn zeta in Hcase.
    rewrite Hr in Hcase. destruct p.
    + destruct (csv_reader file) as [lines|].
      * destruct (csv2json_rows _ _ _) as [data|e0] eqn:Hloop; [done|].
        apply csv2json_rows_raise in Hloop as [[key ->]|[->| ->]];
          injection Hcase as -> _; eauto.
      * injection Hcase as -> _. by left.
    + destruct (open_workbook file) as [msg|wb].
      * injection Hcase as -> _. by left.
      * destruct (Dict.get "system view" wb) as [sh|].
        -- destruct (excel2json_rows _ _); [done|].
           injection Hcase as -> _. by left.
        -- injection Hcase as -> _. by left.
Qed.

(** X13. A run ends in one of two ways. Either [main] returns, and the
    destination holds a table that begins with the header
    [Metric, file1, ...], the other tables on disk being as they were. Or
    [main] raises, and then no table on disk has changed and the exit
    status is 1, but for the [SystemExit()] of [csv2json] under
    [--perfspect], which gives status 0. (Everything [main] can raise
    comes before the first row is written; writing a row to the open file
    is taken not to fail.) *)
Theorem all_or_nothing (a : args) w :
  match main float_of_str list_of_set a w with
  | (Ok _, w') =>
      ∃ f rows,
        files a = Some f
        ∧ outputs w'
          = <[output a := (VStr "Metric" :: (VStr <$> Str.split comma f)) :: rows]>
              (outputs w)
  | (Raise e, w') =>
      outputs w' = outputs w
      ∧ (exit_status (exit_of (Raise e)) = 1%Z
         ∨ (perfspect a = true ∧ e = SystemExit ExitNone))
  end.
Proof.
  unfold main, mbind, M_bind.
  destruct (files a) as [f|]; [|by split; [|left]].
  destruct (Str.truthy f); [|by split; [|left]]. simpl.
  set (w0 := set_stdout _ w).
  destruct (load float_of_str (perfspect a) (Str.split comma f) []
              [VStr "Metric"] w0) as [[[jsondata fields]|e] w1] eqn:Hload;
    apply load_inv in Hload.
  - destruct Hload as (-> & loaded & _ & -> & ->). simpl.
    destruct (metriclist a) as [|m ms].
    + rewrite compare_metrics_all_eq. cbn zeta.
      destruct (Str.endswith (output a) ".csv"); [|by split; [|left]].
      destruct (can_create w0 (output a)); [|by split; [|left]].
      simpl. eauto.
    + rewrite compare_metrics_eq.
      destruct (select_metrics _ _) as [selected|e] eqn:Hsel.
      * cbn zeta.
        destruct (Str.endswith (output a) ".csv"); [|by split; [|left]].
        destruct (can_create w0 (output a)); [|by split; [|left]].
        simpl. eauto.
      * apply select_metrics_raise in Hsel as (_ & [->| ->]);
          by split; [|left].
  - destruct Hload as (good & bad & rest & loaded & _ & _ & Hbad).
    destruct (read_world float_of_str (perfspect a) bad w0)
      as (_ & _ & Hout & _).
    rewrite Hbad in Hout. split; [done|].
    by eapply read_raise_status.
Qed.

(** X14. A run that returns has printed three lines: the list of
    files, the line of the comparison, and where the table is stored. The
    line of the comparison is [comparing predefined metrics only] whenever
    a metric list is given, for an explicit list as for [d]; it is
    [comparing all metrics in the summary sheet] without a list. *)
Theorem printed_lines (a : args) w w' :
  main float_of_str list_of_set a w = (Ok (), w') →
  ∃ f,
    files a = Some f
    ∧ stdout w'
      = stdout w
        ++ [ [PStr "comparing Files: "; PList (Str.split comma f)];
             [PStr (match metriclist a with
                    | [] => "comparing all metrics in the summary sheet"
                    | _ :: _ => "comparing predefined metrics only"
                    end)];
             [PStr (newline +:+ "Data compared and stored at");
              PStr (output a)] ].
Proof.
  unfold main, mbind, M_bind.
  destruct (files a) as [f|]; [|done].
  destruct (Str.truthy f); [|done]. simpl.
  set (w0 := set_stdout _ w).
  destruct (load float_of_str (perfspect a) (Str.split comma f) []
              [VStr "Metric"] w0) as [[[jsondata fields]|e] w1] eqn:Hload;
    [|done].
  apply load_inv in Hload as (-> & loaded & _ & -> & ->). simpl.
  destruct (metriclist a) as [|m ms].
  - rewrite compare_metrics_all_eq. cbn zeta.
    destruct (Str.endswith (output a) ".csv"); [|done].
    destruct (can_create w0 (output a)); [|done].
    intros [= <-]. exists f. split; [done|]. simpl.
    by rewrite <-!app_assoc.
  - rewrite compare_metrics_eq.
    destruct (select_metrics _ _) as [selected|e]; [|done]. cbn zeta.
    destruct (Str.endswith (output a) ".csv"); [|done].
    destruct (can_create w0 (output a)); [|done].
    intros [= <-]. exists f. split; [done|]. simpl.
    by rewrite <-!app_assoc.
Qed.

(** X15. A writer that returns has replaced the table at the destination
    and nothing else: the table at any other path is as it was, and in a
    world with other tables on disk (the destination among them or not)
    the same call leaves the same table at the destination. *)
Theorem overwrite_destination (metriclist : list (@value num)) datalist
    fields out w w' :
  compare_metrics metriclist datalist fields out w = (Ok (), w')
  ∨ compare_metrics_all list_of_set datalist fields out w = (Ok (), w') →
  (∀ out', out' ≠ out → outputs w' !! out' = outputs w !! out')
  ∧ ∀ tables, ∃ w2',
      (compare_metrics metriclist datalist fields out (set_outputs tables w)
       = (Ok (), w2')
       ∨ compare_metrics_all list_of_set datalist fields out
           (set_outputs tables w) = (Ok (), w2'))
      ∧ outputs w2' !! out = outputs w' !! out.
Proof.
  intros [Hrun|Hrun].
  - rewrite compare_metrics_eq in Hrun.
    destruct (select_metrics metriclist datalist) as [selected|] eqn:Hsel;
      [|done].
    cbn zeta in Hrun.
    destruct (Str.endswith out ".csv") eqn:Hcsv; [|done].
    destruct (can_create w out) eqn:Hcreate; [|done].
    injection Hrun as <-. split.
    + intros out' Hne. simpl. by rewrite lookup_insert_ne.
    + intros tables. eexists. split.
      * left. rewrite compare_metrics_eq, Hsel. cbn zeta.
        rewrite Hcsv. simpl. rewrite Hcreate. done.
      * simpl. by rewrite !lookup_insert_eq.
  - rewrite compare_metrics_all_eq in Hrun. cbn zeta in Hrun.
    destruct (Str.endswith out ".csv") eqn:Hcsv; [|done].
    destruct (can_create w out) eqn:Hcreate; [|done].
    injection Hrun as <-. split.
    + intros out' Hne. simpl. by rewrite lookup_insert_ne.
    + intros tables. eexists. split.
      * right. rewrite compare_metrics_all_eq. cbn zeta.
        rewrite Hcsv. simpl. rewrite Hcreate. done.
      * simpl. by rewrite !lookup_insert_eq.
Qed.

(** X16. In predefined mode a key of the first dataset that is not text (a
    number from a numeric cell, or the [None] a short CSV row gives)
    makes [compare_metrics] raise [AttributeError] before it prints,
    checks the destination or writes. *)
Theorem predefined_non_text_key (first : dict num) (rest : list (dict num))
    fields out w k :
  k ∈ Dict.keys first →
  (∀ s, k ≠ VStr s) →
  compare_metrics [] (first :: rest) fields out w = (Raise AttributeError, w).
Proof.
  intros Hk Hnot. rewrite compare_metrics_eq.
  assert (comprehension is_predefined (Dict.keys first) = Raise AttributeError)
    as Hsel; [|by simpl; unfold getindex; simpl; rewrite Hsel].
  induction (Dict.keys first) as [|m l IH]; [by apply elem_of_nil in Hk|].
  simpl. destruct (is_predefined m) as [b|e] eqn:Hm; simpl.
  - apply elem_of_cons in Hk as [->|Hk].
    + destruct m; simpl in Hm; try done. by destruct (Hnot s).
    + by rewrite (IH Hk).
  - destruct m; simpl in Hm; congruence.
Qed.

(** ** From the rows of a file to the cells of the table *)

Lemma csv2json_ok_inv filename w data w' file lines :
  csv2json float_of_str filename w = (Ok data, w') →
  disk w !! filename = Some file →
  csv_reader file = Some lines →
  ∃ kvs, Forall2 (assigns float_of_str) (DictReader lines) kvs
         ∧ data = foldl (λ d kv, Dict.set kv.1 kv.2 d) [] kvs.
Proof.
  intros Hr Hfile Hlines.
  destruct (read_cases float_of_str true filename w) as [[_ Hna]|Hcase].
  { cbn zeta in Hna. unfold read in Hna. congruence. }
  destruct Hcase as (file' & Hfile' & _ & Hcase). cbn zeta in Hcase.
  assert (file' = file) as -> by congruence.
  unfold read in Hcase. rewrite Hlines, Hr in Hcase.
  destruct (csv2json_rows _ _ _) as [data0|e] eqn:Hloop; [|by destruct e].
  injection Hcase as -> ->. by apply csv2json_rows_inv.
Qed.

(** X17. From the files to the table, under [--perfspect] and with an
    explicit metric list, on valid inputs: row [j + 1] of the table
    written begins with name [j] of the list, and its cell for file [i] is
    [NA] when no data row of that file has the name in its [metrics] cell,
    and else the number [float] makes of the [avg] cell of the last such
    row. *)
Theorem perfspect_cell (a : args) w f (loaded : list (dict num))
    j name i filename file lines :
  files a = Some f →
  Str.truthy f = true →
  perfspect a = true →
  Forall2 (λ filename data,
             read float_of_str (perfspect a) filename w = (Ok data, w))
    (Str.split comma f) loaded →
  Str.endswith (output a) ".csv" = true →
  can_create w (output a) = true →
  metriclist a ≠ ["d"] →
  metriclist a !! j = Some name →
  Str.split comma f !! i = Some filename →
  disk w !! filename = Some file →
  csv_reader file = Some lines →
  ∃ w' table row,
    main float_of_str list_of_set a w = (Ok (), w')
    ∧ outputs w' !! output a = Some table
    ∧ table !! S j = Some row
    ∧ row !! 0 = Some (VStr name)
    ∧ ((∀ r, r ∈ DictReader lines → getitem r "metrics" ≠ Ok (Some name)) →
       row !! S i = Some (VStr "NA"))
    ∧ ∀ k r avg x,
        DictReader lines !! k = Some r →
        getitem r "metrics" = Ok (Some name) →
        getitem r "avg" = Ok (Some avg) →
        float_of_str avg = Some x →
        (∀ k' r', k < k' → DictReader lines !! k' = Some r' →
                  getitem r' "metrics" ≠ Ok (Some name)) →
        row !! S i = Some (VNum x).
Proof.
  intros Hf Ht Hp Hread Hcsv Hcreate Hd Hj Hi Hfile Hlines.
  destruct (main_writes float_of_str list_of_set a w f loaded
              (VStr <$> metriclist a)) as (w' & Hmain & Hout); try done.
  { rewrite bool_decide_eq_false_2 by done.
    destruct (metriclist a); [by rewrite lookup_nil in Hj | done]. }
  destruct (Forall2_lookup_l _ _ _ _ _ Hread Hi) as (data & Hdata & Hr).
  rewrite Hp in Hr. unfold read in Hr.
  destruct (csv2json_ok_inv filename w data w file lines Hr Hfile Hlines)
    as (kvs & Hall & Hfold).
  eexists w', _, (rowlines (VStr name) loaded).
  split_and!; [done|by rewrite Hout, lookup_insert_eq|..].
  - simpl. by rewrite !list_lookup_fmap, Hj.
  - by rewrite rowlines_cons.
  - intros Habsent. rewrite (rowlines_lookup _ _ _ _ Hdata). unfold cell.
    assert (Dict.get (VStr name) data = None) as ->; [|done].
    apply get_None. rewrite Hfold, keys_assignments.
    change (Dict.keys (K:=@value num) (V:=@value num) [])
      with (@nil (@value num)).
    rewrite elem_of_nil, (right_id _ _). intros Hk.
    apply list_elem_of_fmap in Hk as (kv & Hname & Hkv).
    apply list_elem_of_lookup in Hkv as [k Hk].
    destruct (Forall2_lookup_r _ _ _ _ _ Hall Hk)
      as (r & Hrk & key & avg & x & Hkey & _ & _ & ->).
    simpl in Hname. apply (Habsent r); [by eapply list_elem_of_lookup_2|].
    rewrite Hkey. f_equal. destruct key; simpl in Hname; congruence.
  - intros k r avg x Hk Hkey Havg Hx Hlast.
    rewrite (rowlines_lookup _ _ _ _ Hdata). unfold cell.
    assert (Dict.get (VStr name) data = Some (VNum x)) as ->; [|done].
    destruct (Forall2_lookup_l _ _ _ _ _ Hall Hk)
      as (kv & Hkv & key' & avg' & x' & Hkey' & Havg' & Hx' & ->).
    assert (key' = Some name) as -> by congruence.
    assert (avg' = avg) as -> by congruence.
    assert (x' = x) as -> by congruence.
    rewrite Hfold. apply (get_assignments kvs k); [done|].
    intros k' kv Hkk Hk'.
    destruct (Forall2_lookup_r _ _ _ _ _ Hall Hk')
      as (r' & Hr' & key2 & ? & ? & Hkey2 & _ & _ & ->).
    simpl. intros Heq. apply (Hlast k' r' Hkk Hr'). rewrite Hkey2. f_equal.
    destruct key2; simpl in Heq; congruence.
Qed.

End Runs.

(** * The check of the destination *)

Lemma substring_all (s : string) :
  String.substring 0 (String.length s) s = s.
Proof. induction s as [|c s IH]; simpl; [done | by rewrite IH]. Qed.

Lemma substring_append (p suffix : string) :
  String.substring (String.length p) (String.length suffix) (p +:+ suffix)
  = suffix.
Proof. induction p as [|c p IH]; simpl; [apply substring_all | done]. Qed.

Lemma length_append (p s : string) :
  String.length (p +:+ s) = String.length p + String.length s.
Proof. induction p as [|c p IH]; simpl; [done | by rewrite IH]. Qed.

Lemma substring_suffix (s : string) (n m : nat) :
  n + m = String.length s → ∃ p, s = p +:+ String.substring n m s.
Proof.
  revert s. induction n as [|n IH]; intros s Hlen.
  - exists EmptyString. simpl in *. subst m. by rewrite substring_all.
  - destruct s as [|c s]; simpl in *; [lia|].
    destruct (IH s) as [p Hp]; [lia|].
    exists (String c p).
    change (String c s = String c (p +:+ String.substring n m s)).
    by f_equal.
Qed.

Lemma endswith_spec (s suffix : string) :
  Str.endswith s suffix = true ↔ ∃ p, s = p +:+ suffix.
Proof.
  unfold Str.endswith. rewrite andb_true_iff, Nat.leb_le, String.eqb_eq.
  split.
  - intros [Hle Hsub].
    destruct (substring_suffix s (String.length s - String.length suffix)
                (String.length suffix)) as [p Hp]; [lia|].
    exists p. by rewrite Hsub in Hp.
  - intros [p ->]. rewrite length_append. split; [lia|].
    replace (String.length p + String.length suffix - String.length suffix)
      with (String.length p) by lia.
    apply substring_append.
Qed.

(** X18. [invalid_filename] lets pass exactly the names made of any text,
    the empty one too, followed by [.csv]; any other name raises the
    [SystemError] that quotes it. Either way nothing is printed or
    written. *)
Theorem csv_extension_accepted {num : Type} (filename : string)
    (w : @world num) :
  ((∃ stem, filename = stem +:+ ".csv") →
   invalid_filename filename w = (Ok (), w))
  ∧ ((∀ stem, filename ≠ stem +:+ ".csv") →
     invalid_filename filename w
     = (Raise (SystemError (filename +:+ " isn't a csv format!")), w)).
Proof.
  unfold invalid_filename. split.
  - intros Hcsv. apply endswith_spec in Hcsv. by rewrite Hcsv.
  - intros Hnot. destruct (Str.endswith filename ".csv") eqn:Hcsv; [|done].
    apply endswith_spec in Hcsv as [stem ->]. by destruct (Hnot stem).
Qed.

(** * The further properties on examples *)

Ltac each_row H :=
  repeat (apply elem_of_cons in H as [->|H]);
  [..|by apply elem_of_nil in H].

Lemma excel_last_row_wins_witness :
  ∃ data,
    excel2json "X" "system view" Demo.workbooks = (Ok data, Demo.workbooks)
    ∧ Dict.get (VStr "metric_CPI") data = Some (VNum (2%N, O)).
Proof.
  destruct (excel_last_row_wins "X" "system view" Demo.workbooks
              (Demo.xls_file [("summary", []);
                              ("system view", Demo.system_view)])
              [("summary", []); ("system view", Demo.system_view)]
              Demo.system_view)
    as (data & Hrun & _ & Hlast).
  - vm_compute. reflexivity.
  - reflexivity.
  - reflexivity.
  - vm_compute. reflexivity.
  - intros row Hrow. cbn [drop Demo.system_view] in Hrow.
    each_row Hrow; simpl; lia.
  - exists data. split; [exact Hrun|].
    apply (Hlast 2 [VStr "metric_CPI"; VNum (2%N, O)]).
    + reflexivity.
    + reflexivity.
    + reflexivity.
    + intros j row' Hj Hrow'. destruct j as [|[|[|j]]]; try lia.
      discriminate Hrow'.
Defined.

Lemma reader_keys_unique_witness :
  NoDup (Dict.keys (K:=@value Demo.decimal) Demo.dataB).
Proof.
  apply (reader_keys_unique Demo.float_of_str true "D" Demo.with_duplicates
           Demo.dataB Demo.with_duplicates).
  vm_compute. reflexivity.
Defined.

Lemma csv_key_order_witness :
  ∃ names,
    Forall2 (λ row key, getitem row "metrics" = Ok key)
      (DictReader [ ["metrics"; "avg"]; ["metric_CPI"; "1.5"];
                    ["metric_TMA_Frontend"; "0.3"]; ["metric_CPI"; "2.0"] ])
      names
    ∧ Dict.keys (K:=@value Demo.decimal) Demo.dataB
      = reverse (remove_dups (reverse (of_cell <$> names))).
Proof.
  apply (csv_key_order Demo.float_of_str "D" Demo.with_duplicates Demo.dataB
           Demo.with_duplicates Demo.duplicates).
  - vm_compute. reflexivity.
  - vm_compute. reflexivity.
  - reflexivity.
Defined.

Lemma excel_key_order_witness :
  ∃ names,
    Forall2 (λ row name, row !! 0 = Some name) (drop 1 Demo.system_view) names
    ∧ Dict.keys (K:=@value Demo.decimal) Demo.dataB
      = reverse (remove_dups (reverse names)).
Proof.
  apply (excel_key_order "X" Demo.workbooks Demo.dataB Demo.workbooks
           (Demo.xls_file [("summary", []);
                           ("system view", Demo.system_view)])
           [("summary", []); ("system view", Demo.system_view)]).
  - vm_compute. reflexivity.
  - vm_compute. reflexivity.
  - reflexivity.
  - vm_compute. reflexivity.
Defined.

Lemma workbook_error_exit_witness :
  ∃ msg,
    excel2json "W" "system view" Demo.workbooks
    = (Raise (SystemExit (ExitInt 1)),
       set_stdout (stdout Demo.workbooks ++ [[PStr msg]]) Demo.workbooks).
Proof.
  destruct (workbook_error_exit "W" Demo.workbooks
              (Demo.xls_file [("Sheet1", [[VStr "name"; VStr "value"]])]))
    as (msg & Hrun & _).
  - vm_compute. reflexivity.
  - reflexivity.
  - vm_compute. reflexivity.
  - exists msg. exact Hrun.
Defined.

Lemma csv_no_data_rows_witness :
  csv2json Demo.float_of_str "E" Demo.mixed = (Ok [], Demo.mixed).
Proof.
  apply (csv_no_data_rows Demo.float_of_str "E" Demo.mixed
           (Demo.text_file [ ["name"; "value"]; []; [] ])
           [ ["name"; "value"]; []; [] ]).
  - vm_compute. reflexivity.
  - reflexivity.
  - reflexivity.
  - intros row Hrow. cbn [drop] in Hrow. each_row Hrow; reflexivity.
Defined.

Lemma csv_bad_avg_witness :
  csv2json Demo.float_of_str "T" Demo.mixed = (Raise TypeError, Demo.mixed).
Proof.
  apply (csv_bad_avg Demo.float_of_str "T" Demo.mixed
           (Demo.text_file [ ["metrics"; "avg"]; ["metric_CPI"; "2.0"];
                             ["metric_TMA_Frontend"] ])
           [ ["metrics"; "avg"]; ["metric_CPI"; "2.0"];
             ["metric_TMA_Frontend"] ]
           [DictReader_row ["metrics"; "avg"] ["metric_CPI"; "2.0"]]
           (DictReader_row ["metrics"; "avg"] ["metric_TMA_Frontend"])
           [] (Some "metric_TMA_Frontend") None).
  - vm_compute. reflexivity.
  - reflexivity.
  - reflexivity.
  - vm_compute. reflexivity.
  - intros row Hrow. each_row Hrow.
    exists (VStr "metric_CPI", VNum (2%N, O)).
    exists (Some "metric_CPI"), "2.0", (2%N, O).
    repeat split; vm_compute; reflexivity.
  - vm_compute. reflexivity.
  - vm_compute. reflexivity.
  - exact I.
Defined.

Lemma excel_short_row_witness :
  excel2json "S" "system view" Demo.workbooks
  = (Raise IndexError, Demo.workbooks).
Proof.
  apply (excel_short_row "S" "system view" Demo.workbooks
           (Demo.xls_file [("system view", Demo.short_view)])
           [("system view", Demo.short_view)] Demo.short_view
           [] [VStr "metric_CPI"] [[VStr "metric_TMA_Frontend"]]).
  - vm_compute. reflexivity.
  - reflexivity.
  - reflexivity.
  - vm_compute. reflexivity.
  - reflexivity.
  - intros row Hrow. by apply elem_of_nil in Hrow.
  - simpl. lia.
Defined.

Lemma first_failure_decides_witness :
  ∃ w',
    Demo.main Demo.mixed_args Demo.mixed = (Raise (SystemExit ExitNone), w')
    ∧ Demo.script Demo.mixed_args Demo.mixed = (Outcome 0 None, w')
    ∧ outputs w' = outputs Demo.mixed.
Proof.
  apply (first_failure_decides Demo.float_of_str Demo.list_of_set
           Demo.mixed_args Demo.mixed "B,M,T" ["B"] "M" ["T"] [Demo.dataB]
           (SystemExit ExitNone) Demo.mixed).
  - reflexivity.
  - reflexivity.
  - reflexivity.
  - apply List.Forall2_cons; [vm_compute; reflexivity|].
    apply List.Forall2_nil.
  - vm_compute. reflexivity.
Defined.

Lemma first_unreadable_file_witness :
  Demo.script Demo.unreadable_args Demo.scenario
  = (Outcome 1 (Some (Message "C not accessible")),
     set_stdout
       (stdout Demo.scenario ++ [[PStr "comparing Files: "; PList ["A"; "C"]]])
       Demo.scenario).
Proof.
  apply (first_unreadable_file Demo.float_of_str Demo.list_of_set
           Demo.unreadable_args Demo.scenario "A,C" ["A"] "C" []
           [Demo.dataA]).
  - reflexivity.
  - reflexivity.
  - reflexivity.
  - apply List.Forall2_cons; [vm_compute; reflexivity|].
    apply List.Forall2_nil.
  - vm_compute. reflexivity.
Defined.

Lemma missing_column_silent_exit_witness :
  Demo.script Demo.mixed_args Demo.mixed
  = (Outcome 0 None,
     set_stdout
       (stdout Demo.mixed ++ [[PStr "comparing Files: "; PList ["B"; "M"; "T"]]])
       Demo.mixed).
Proof.
  apply (missing_column_silent_exit Demo.float_of_str Demo.list_of_set
           Demo.mixed_args Demo.mixed "B,M,T" ["B"] "M" ["T"] [Demo.dataB]
           (Demo.text_file [ ["metrics"; "mean"]; []; ["metric_CPI"; "2.0"] ])
           ["metrics"; "mean"] [ []; ["metric_CPI"; "2.0"] ]
           ["metric_CPI"; "2.0"]).
  - reflexivity.
  - reflexivity.
  - reflexivity.
  - reflexivity.
  - apply List.Forall2_cons; [vm_compute; reflexivity|].
    apply List.Forall2_nil.
  - vm_compute. reflexivity.
  - reflexivity.
  - reflexivity.
  - apply list_elem_of_further, list_elem_of_here.
  - discriminate.
  - right. intros Hin.
    repeat (apply elem_of_cons in Hin as [Heq|Hin]; [discriminate Heq|]).
    by apply elem_of_nil in Hin.
Defined.

Lemma printed_lines_witness :
  ∃ f,
    files Demo.explicit_args = Some f
    ∧ stdout (Demo.main Demo.explicit_args Demo.scenario).2
      = stdout Demo.scenario
        ++ [ [PStr "comparing Files: "; PList (Str.split comma f)];
             [PStr "comparing predefined metrics only"];
             [PStr (newline +:+ "Data compared and stored at");
              PStr "out.csv"] ].
Proof.
  apply (printed_lines Demo.float_of_str Demo.list_of_set Demo.explicit_args
           Demo.scenario).
  vm_compute. reflexivity.
Defined.

Lemma overwrite_destination_witness :
  outputs
    (compare_metrics [VStr "metric_CPI"] [Demo.dataA; Demo.dataB]
       [VStr "Metric"; VStr "A"; VStr "B"] "out.csv" Demo.scenario).2
    !! "other.csv"
  = outputs Demo.scenario !! "other.csv".
Proof.
  destruct (overwrite_destination Demo.list_of_set [VStr "metric_CPI"]
              [Demo.dataA; Demo.dataB] [VStr "Metric"; VStr "A"; VStr "B"]
              "out.csv" Demo.scenario
              (compare_metrics [VStr "metric_CPI"] [Demo.dataA; Demo.dataB]
                 [VStr "Metric"; VStr "A"; VStr "B"] "out.csv"
                 Demo.scenario).2) as [Hother _].
  - left. vm_compute. reflexivity.
  - apply Hother. discriminate.
Defined.

Lemma predefined_non_text_key_witness :
  compare_metrics [] [Demo.numeric_key; Demo.dataA]
    [VStr "Metric"; VStr "K"; VStr "A"] "out.csv" Demo.scenario
  = (Raise AttributeError, Demo.scenario).
Proof.
  apply (predefined_non_text_key Demo.numeric_key [Demo.dataA]
           [VStr "Metric"; VStr "K"; VStr "A"] "out.csv" Demo.scenario
           (VNum (7%N, O))).
  - apply list_elem_of_further, list_elem_of_here.
  - discriminate.
Defined.

Lemma perfspect_cell_witness :
  ∃ w' table (row : list (@value Demo.decimal)),
    Demo.main Demo.explicit_args Demo.scenario = (Ok (), w')
    ∧ outputs w' !! "out.csv" = Some table
    ∧ table !! 2 = Some row
    ∧ row !! 0 = Some (VStr "metric_TMA_Frontend")
    ∧ row !! 1 = Some (VStr "NA").
Proof.
  destruct (perfspect_cell Demo.float_of_str Demo.list_of_set
              Demo.explicit_args Demo.scenario "A,B" [Demo.dataA; Demo.dataB]
              1 "metric_TMA_Frontend" 0 "A"
              (Demo.text_file [ ["metrics"; "avg"]; ["metric_CPI"; "1.5"] ])
              [ ["metrics"; "avg"]; ["metric_CPI"; "1.5"] ])
    as (w' & table & row & Hmain & Hout & Hrow & Hname & Hna & _).
  - reflexivity.
  - reflexivity.
  - reflexivity.
  - apply List.Forall2_cons; [vm_compute; reflexivity|].
    apply List.Forall2_cons; [vm_compute; reflexivity|].
    apply List.Forall2_nil.
  - reflexivity.
  - reflexivity.
  - discriminate.
  - reflexivity.
  - reflexivity.
  - vm_compute. reflexivity.
  - reflexivity.
  - exists w', table, row. split; [exact Hmain|]. split; [exact Hout|].
    split; [exact Hrow|]. split; [exact Hname|].
    apply Hna. intros r Hr. cbn [DictReader] in Hr.
    rewrite filter_cons in Hr. simpl in Hr.
    each_row Hr. vm_compute. discriminate.
Defined.
